(** * iflow-django-dev-skill: the Django REST Framework templates

    A shallow embedding of the three template files

    - [django/templates/serializer-example.py]
    - [django/examples/viewset-example.py]
    - [django/examples/filters-example.py]

    Python values are modelled in [Py]; the part of the ORM the templates
    call (managers, querysets, [save], the many-to-many manager) in [ORM];
    each template file in a module of its own. The properties follow the
    definitions. *)

From Stdlib Require Import NArith ZArith.
From stdpp Require Import gmap strings list fin_maps.

(** ** Python values *)

Module Py.

(** A Python [str] is a sequence of Unicode code points: [len] counts code
    points, not bytes. *)
Definition str : Type := list N.

(** An ASCII literal of the source. *)
Definition lit (s : string) : str :=
  Ascii.N_of_ascii <$> String.list_ascii_of_string s.

Definition len (s : str) : nat := length s.

(** The values a serializer hands over in [validated_data] and a model
    instance stores: scalars, and the list of dicts a nested
    [many=True] serializer produces. *)
Inductive scalar :=
| PyNone
| PyBool (b : bool)
| PyInt (z : Z)
| PyStr (s : str).

Inductive value :=
| Scalar (s : scalar)
| PyList (items : list (gmap string scalar)).

#[global] Instance scalar_eq_dec : EqDecision scalar.
Proof. solve_decision. Defined.

#[global] Instance value_eq_dec : EqDecision value.
Proof. solve_decision. Defined.

(** Truth value testing ([not x], [if x]). *)
Definition truthy_scalar (s : scalar) : bool :=
  match s with
  | PyNone => false
  | PyBool b => b
  | PyInt z => negb (z =? 0)%Z
  | PyStr s => match s with [] => false | _ => true end
  end.

Definition truthy (v : value) : bool :=
  match v with
  | Scalar s => truthy_scalar s
  | PyList items => match items with [] => false | _ => true end
  end.

(** [d.get(key)]: the value, or [None] for a missing key. *)
Definition get (d : gmap string value) (key : string) : value :=
  default (Scalar PyNone) (d !! key).

(** [d.pop(key, dflt)] returns the value (or [dflt]) and removes the key. *)
Definition pop {A} (d : gmap string A) (key : string) (dflt : A)
  : A * gmap string A :=
  (default dflt (d !! key), delete key d).

(** [v == "literal"]: only a [str] with the same code points is equal to a
    [str]. *)
Definition eq_str (v : value) (s : str) : bool :=
  bool_decide (v = Scalar (PyStr s)).

(** Exceptions raised by the templates and by the framework calls they
    make. A [ValidationError] carries either a message or a dict of
    messages by field. *)
Inductive detail :=
| Message (msg : str)
| ByField (msgs : gmap string str).

Inductive exn :=
| ValidationError (d : detail)
| TypeError
| FieldError
| Http404
| DoesNotExist
| MultipleObjectsReturned
| DatabaseError.

Inductive result (A : Type) :=
| Ok (a : A)
| Raise (e : exn).
Arguments Ok {A} a.
Arguments Raise {A} e.

End Py.

Import Py.

(** ** The ORM calls of the templates

    [models.py] is not part of the templates; the models are known only by
    the fields the templates name. A model instance is a primary key with
    its attributes by name, a table the list of its rows in insertion
    order, and the [Article.tags] many-to-many relation a set of
    (article pk, tag pk) pairs. *)

Module ORM.

Record row := Row { pk : nat; fields : gmap string value }.

#[global] Instance row_eq_dec : EqDecision row.
Proof. solve_decision. Defined.

Record db := Db {
  articles : list row;
  tags : list row;
  article_tags : gset (nat * nat)
}.

Inductive model := Article | Tag.

Definition table (m : model) (d : db) : list row :=
  match m with Article => articles d | Tag => tags d end.

Definition set_table (m : model) (rows : list row) (d : db) : db :=
  match m with
  | Article => Db rows (tags d) (article_tags d)
  | Tag => Db (articles d) rows (article_tags d)
  end.

(** Code that reads and writes the database and may raise: the state after
    an exception is the state reached when it was raised. *)
Definition M (A : Type) : Type := db → result A * db.

#[global] Instance M_ret : MRet M := λ A a d, (Ok a, d).

#[global] Instance M_bind : MBind M := λ A B f m d,
  match m d with
  | (Ok a, d') => f a d'
  | (Raise e, d') => (Raise e, d')
  end.

Definition raise {A} (e : exn) : M A := λ d, (Raise e, d).

Definition read {A} (f : db → A) : M A := λ d, (Ok (f d), d).

Definition write (f : db → db) : M () := λ d, (Ok (), f d).

(** [for x in xs: body(x)] *)
Fixpoint for_each {A} (xs : list A) (body : A → M ()) : M () :=
  match xs with
  | [] => mret ()
  | x :: xs' => _ ← body x; for_each xs' body
  end.

(** [instance.name] and [setattr(instance, name, v)]. An attribute the
    instance does not carry reads as [None]. *)
Definition getattr (r : row) (name : string) : value := get (fields r) name.

Definition setattr (r : row) (name : string) (v : value) : row :=
  Row (pk r) (<[name := v]> (fields r)).

(** [queryset.filter(key=v)] *)
Definition qs_filter (key : string) (v : value) (qs : list row) : list row :=
  filter (λ r, fields r !! key = Some v) qs.

(** [queryset.filter] with keyword arguments: every keyword is an exact
    match. *)
Definition matches (kwargs : gmap string value) (r : row) : Prop :=
  map_Forall (λ k v, fields r !! k = Some v) kwargs.

#[global] Instance matches_dec kwargs r : Decision (matches kwargs r).
Proof. unfold matches. apply _. Defined.

(** [queryset.get(...)]: the one row selected, [DoesNotExist] when there is
    none, [MultipleObjectsReturned] when there are several. *)
Definition qs_get (P : row → Prop) `{∀ r, Decision (P r)} (qs : list row)
  : result row :=
  match filter P qs with
  | [] => Raise DoesNotExist
  | [r] => Ok r
  | _ => Raise MultipleObjectsReturned
  end.

(** The primary key the database gives a new row. *)
Definition next_pk (rows : list row) : nat := S (max_list (pk <$> rows)).

(** Modelled from the spec: [models.py] is missing. The fields of a model
    are those the templates name for it: the serializers' [Meta.fields]
    and the filters' [field_name]s. The primary key is left out: the
    serializers have it read-only and never pass it, so a keyword for it
    is not modelled (it is refused below like an unknown one). *)
Definition columns (m : model) : list string :=
  match m with
  | Article =>
      ["title"; "content"; "summary"; "status"; "author";
       "created_at"; "updated_at"]
  | Tag => ["name"; "slug"]
  end.

(** Every keyword names a field of the model. *)
Definition accepted (m : model) (kwargs : gmap string value) : Prop :=
  map_Forall (λ k _, k ∈ columns m) kwargs.

#[global] Instance accepted_dec m kwargs : Decision (accepted m kwargs).
Proof. unfold accepted. apply _. Defined.

(** [Model.objects.create] with keyword arguments: a keyword that is no
    field of the model makes the constructor raise [TypeError], before
    anything is inserted. *)
Definition create (m : model) (kwargs : gmap string value) : M row := λ d,
  if bool_decide (accepted m kwargs) then
    let r := Row (next_pk (table m d)) kwargs in
    (Ok r, set_table m (table m d ++ [r]) d)
  else (Raise TypeError, d).

(** [Model.objects.get_or_create] with keyword arguments: the row and
    whether it was created. A keyword that is no field of the model makes
    the lookup raise [FieldError]. *)
Definition get_or_create (m : model) (kwargs : gmap string value)
  : M (row * bool) := λ d,
  if bool_decide (accepted m kwargs) then
    match qs_get (matches kwargs) (table m d) with
    | Ok r => (Ok (r, false), d)
    | Raise DoesNotExist => (r ← create m kwargs; mret (r, true)) d
    | Raise e => (Raise e, d)
    end
  else (Raise FieldError, d).

(** The columns [save] writes: all of them, or those of [update_fields]. *)
Definition written (instance : row) (update_fields : option (list string))
  (old : gmap string value) : gmap string value :=
  match update_fields with
  | None => fields instance
  | Some names => foldr (λ n acc, <[n := getattr instance n]> acc) old names
  end.

(** [instance.save(update_fields=...)] on an article: an UPDATE of the row
    with the instance's primary key; without [update_fields] an INSERT when
    no row has it, with [update_fields] a [DatabaseError]. *)
Definition save (instance : row) (update_fields : option (list string))
  : M () := λ d,
  if bool_decide (pk instance ∈ pk <$> articles d) then
    (Ok (),
     set_table Article
       ((λ r, if bool_decide (pk r = pk instance)
              then Row (pk r) (written instance update_fields (fields r))
              else r) <$> articles d) d)
  else
    match update_fields with
    | None => (Ok (), set_table Article (articles d ++ [instance]) d)
    | Some _ => (Raise DatabaseError, d)
    end.

(** [article.tags.add(tag)] and [article.tags.clear()] *)
Definition tags_add (article tag : row) : M () :=
  write (λ d, Db (articles d) (tags d)
                 ({[ (pk article, pk tag) ]} ∪ article_tags d)).

Definition tags_clear (article : row) : M () :=
  write (λ d, Db (articles d) (tags d)
                 (filter (λ p, p.1 ≠ pk article) (article_tags d))).

(** The tags of an article. *)
Definition tags_of (d : db) (article_pk : nat) : gset nat :=
  set_map snd (filter (λ p, p.1 = article_pk) (article_tags d)).

End ORM.

Import ORM.

(** ** serializer-example.py: validation *)

Module ArticleSerializer.

(** "标题至少 5 个字符" *)
Definition title_too_short : str :=
  [0x6807; 0x9898; 0x81F3; 0x5C11; 0x20; 0x35; 0x20; 0x4E2A; 0x5B57; 0x7B26]%N.

(** "发布文章必须提供摘要" *)
Definition summary_required : str :=
  [0x53D1; 0x5E03; 0x6587; 0x7AE0; 0x5FC5; 0x987B; 0x63D0; 0x4F9B; 0x6458; 0x8981]%N.

Definition validate_title (value : str) : result str :=
  if len value <? 5 then Raise (ValidationError (Message title_too_short))
  else Ok value.

Definition validate (attrs : gmap string value) : result (gmap string value) :=
  if eq_str (get attrs "status") (lit "published")
     && negb (truthy (get attrs "summary"))
  then Raise (ValidationError (ByField {[ "summary" := summary_required ]}))
  else Ok attrs.

End ArticleSerializer.

(** ** serializer-example.py: nested create and update *)

Module ArticleCreateSerializer.

(** The keyword arguments [**tag_data] of one validated tag dict. *)
Definition kwargs_of (tag_data : gmap string scalar) : gmap string value :=
  Scalar <$> tag_data.

(** What [for tag_data in tags_data] runs over. The nested serializer gives
    a list of dicts; an empty [str] gives no iteration at all; any other
    scalar is either not iterable or yields items that are no mapping, so
    the loop raises [TypeError] before its first [get_or_create]. *)
Definition iter (tags_data : value) : M (list (gmap string scalar)) :=
  match tags_data with
  | PyList items => mret items
  | Scalar (PyStr []) => mret []
  | Scalar _ => raise TypeError
  end.

(** The body of both loops:
    [tag, _ = Tag.objects.get_or_create(...); article.tags.add(tag)] *)
Definition attach (article : row) (tag_data : gmap string scalar) : M () :=
  '(tag, _) ← get_or_create Tag (kwargs_of tag_data);
  tags_add article tag.

Definition create (validated_data : gmap string value) : M row :=
  let '(tags_data, validated_data) := pop validated_data "tags" (PyList []) in
  article ← ORM.create Article validated_data;
  items ← iter tags_data;
  _ ← for_each items (attach article);
  mret article.

(** The items of a dict have distinct keys, so the order in which the loop
    over [validated_data.items()] runs does not show in the instance. *)
Definition update (instance : row) (validated_data : gmap string value)
  : M row :=
  let '(tags_data, validated_data) :=
    pop validated_data "tags" (Scalar PyNone) in
  let instance :=
    map_fold (λ attr value instance, setattr instance attr value)
      instance validated_data in
  _ ← save instance None;
  _ ← (if bool_decide (tags_data ≠ Scalar PyNone) then
         _ ← tags_clear instance;
         items ← iter tags_data;
         for_each items (attach instance)
       else mret ());
  mret instance.

End ArticleCreateSerializer.

(** ** viewset-example.py *)

Module Views.

Record User := { user_pk : nat; is_staff : bool }.

Record Request := { user : User; query_params : list (string * str) }.

(** A user as the value of a foreign key ([author=request.user]). *)
Definition user_ref (u : User) : value := Scalar (PyInt (Z.of_nat (user_pk u))).

Inductive serializer_class := ArticleSerializer | ArticleDetailSerializer.

(** A serializer that passed [is_valid]: its validated data and its
    [create] method. *)
Record serializer := {
  validated_data : gmap string value;
  serializer_create : gmap string value → M row
}.

(** A response body: the dict of an error, [serializer.data] for one
    instance or for many, or the envelope of [get_paginated_response]. *)
Inductive body (R : Type) :=
| Detail (d : gmap string str)
| Item (r : R)
| Items (rs : list R)
| Page (rs : list R).
Arguments Detail {R} d.
Arguments Item {R} r.
Arguments Items {R} rs.
Arguments Page {R} rs.

Record Response (R : Type) := { data : body R; status_code : nat }.
Arguments data {R} _.
Arguments status_code {R} _.

Definition HTTP_200_OK : nat := 200.
Definition HTTP_400_BAD_REQUEST : nat := 400.

(** What the view inherits from the framework and configures only by class
    attributes: the filter backends, the paginator, and the rendering of
    an instance by a serializer class ([R] is the rendered form). *)
Record generic (R : Type) := {
  filter_queryset : Request → list row → list row;
  paginate_queryset : Request → list row → option (list row);
  to_representation : serializer_class → row → R
}.
Arguments filter_queryset {R} _ _ _.
Arguments paginate_queryset {R} _ _ _.
Arguments to_representation {R} _ _ _.

(** The framework's base-class methods the view calls or overrides. *)
Module ModelViewSet.

(** [GenericAPIView.get_queryset]: the class attribute [queryset];
    [select_related] and [prefetch_related] do not change its rows. *)
Definition get_queryset (d : db) : list row := table Article d.

(** [GenericAPIView.get_object]: [get_object_or_404] over the filtered
    queryset of the view (its own [get_queryset]). *)
Definition get_object {R} (self : generic R)
  (get_queryset : Request → db → list row) (request : Request) (k : nat)
  : M row := λ d,
  match qs_get (λ r, pk r = k)
          (filter_queryset self request (get_queryset request d)) with
  | Ok obj => (Ok obj, d)
  | Raise DoesNotExist => (Raise Http404, d)
  | Raise e => (Raise e, d)
  end.

(** [BaseSerializer.save] of a serializer without instance: the keyword
    arguments are merged over the validated data and passed to [create]. *)
Definition save (s : serializer) (kwargs : gmap string value) : M row :=
  serializer_create s (kwargs ∪ validated_data s).

(** [CreateModelMixin.perform_create] *)
Definition perform_create (s : serializer) : M row := save s ∅.

End ModelViewSet.

Module ArticleViewSet.

(** "文章已发布" *)
Definition already_published : str := [0x6587; 0x7AE0; 0x5DF2; 0x53D1; 0x5E03]%N.

Definition published : value := Scalar (PyStr (lit "published")).

(** The class attributes: who may call the view, and what configures the
    filter backends. *)
Definition permission_classes : list string := ["IsAuthenticated"].
Definition filter_backends : list string :=
  ["DjangoFilterBackend"; "SearchFilter"; "OrderingFilter"].
Definition filterset_fields : list string := ["status"; "author"].
Definition search_fields : list string := ["title"; "content"].
Definition ordering_fields : list string := ["created_at"; "updated_at"].
Definition ordering : list string := ["-created_at"].

Definition get_serializer_class (action : string) : serializer_class :=
  if bool_decide (action = "retrieve") then ArticleDetailSerializer
  else ArticleSerializer.

(** [self.get_serializer(x).data] inside the action named [action]. *)
Definition get_serializer {R} (self : generic R) (action : string) (x : row) : R :=
  to_representation self (get_serializer_class action) x.

Definition get_queryset (request : Request) (d : db) : list row :=
  let queryset := ModelViewSet.get_queryset d in
  if negb (is_staff (user request)) then qs_filter "status" published queryset
  else queryset.

Definition perform_create (request : Request) (s : serializer) : M row :=
  ModelViewSet.save s {[ "author" := user_ref (user request) ]}.

Definition publish {R} (self : generic R) (request : Request) (k : nat)
  : M (Response R) :=
  article ← ModelViewSet.get_object self get_queryset request k;
  if eq_str (getattr article "status") (lit "published") then
    mret {| data := Detail {[ "detail" := already_published ]};
            status_code := HTTP_400_BAD_REQUEST |}
  else
    let article := setattr article "status" published in
    _ ← ORM.save article (Some ["status"]);
    mret {| data := Item (get_serializer self "publish" article);
            status_code := HTTP_200_OK |}.

Definition my_articles {R} (self : generic R) (request : Request)
  : M (Response R) :=
  articles ← read (λ d, qs_filter "author" (user_ref (user request))
                          (get_queryset request d));
  match paginate_queryset self request articles with
  | Some page =>
      mret {| data := Page (get_serializer self "my_articles" <$> page);
              status_code := HTTP_200_OK |}
  | None =>
      mret {| data := Items (get_serializer self "my_articles" <$> articles);
              status_code := HTTP_200_OK |}
  end.

End ArticleViewSet.

(** *** The actions of the view and their routes *)

(** [View.http_method_names] *)
Inductive http_method :=
| GET | POST | PUT | PATCH | DELETE | HEAD | OPTIONS | TRACE.

#[global] Instance http_method_eq_dec : EqDecision http_method.
Proof. solve_decision. Defined.

(** An [@action]: the handler's name, whether it acts on one instance
    ([detail]), and the HTTP methods it answers. *)
Record action := Action {
  name : string;
  detail : bool;
  methods : list http_method
}.

(** The handlers [ModelViewSet] brings (the docstring of the view lists
    them). *)
Definition crud_actions : list string :=
  ["list"; "retrieve"; "create"; "update"; "partial_update"; "destroy"].

(** The methods decorated with [@action] in [ArticleViewSet]. *)
Definition extra_actions : list action :=
  [ Action "publish" true [POST];
    Action "my_articles" false [GET] ].

(** The method maps of the router's two fixed routes
    ([SimpleRouter.routes]). *)
Definition list_route : list (http_method * string) :=
  [ (GET, "list"); (POST, "create") ].

Definition detail_route : list (http_method * string) :=
  [ (GET, "retrieve"); (PUT, "update"); (PATCH, "partial_update");
    (DELETE, "destroy") ].

(** [SimpleRouter.get_method_map]: a route binds the methods whose handler
    the view has. *)
Definition get_method_map (mapping : list (http_method * string))
  : list (http_method * string) :=
  filter (λ b, b.2 ∈ crud_actions) mapping.

(** The route of an [@action] binds each of its methods to the handler. *)
Definition action_map (a : action) : list (http_method * string) :=
  (λ m, (m, name a)) <$> methods a.

(** What a request gets: a handler of the view, the framework's answer to
    OPTIONS, 405 or 404. *)
Inductive answer :=
| Handler (h : string)
| Metadata
| MethodNotAllowed
| NotFound.

#[global] Instance answer_eq_dec : EqDecision answer.
Proof. solve_decision. Defined.

Definition bound (mapping : list (http_method * string)) (m : http_method)
  : option string :=
  snd <$> find (λ b, bool_decide (b.1 = m)) mapping.

(** [ViewSetMixin.as_view] and [APIView.dispatch]: a route without handler
    is not registered; HEAD is answered by the handler of GET; OPTIONS by
    the framework; a method that is not bound gets 405. *)
Definition dispatch (m : http_method) (mapping : list (http_method * string))
  : answer :=
  match mapping with
  | [] => NotFound
  | _ =>
      match bound mapping m, m with
      | Some h, _ => Handler h
      | None, HEAD =>
          match bound mapping GET with
          | Some h => Handler h
          | None => MethodNotAllowed
          end
      | None, OPTIONS => Metadata
      | None, _ => MethodNotAllowed
      end
  end.

(** The router's [lookup_value_regex]: one or more characters other than
    a slash and a dot. *)
Definition lookup_value (seg : string) : Prop :=
  seg ≠ ""
  ∧ Forall (λ c, c ∉ String.list_ascii_of_string "/.")
      (String.list_ascii_of_string seg).

#[global] Instance lookup_value_dec seg : Decision (lookup_value seg).
Proof. unfold lookup_value. apply _. Defined.

Definition extra_action (d : bool) (seg : string) : option action :=
  find (λ a, bool_decide (detail a = d ∧ name a = seg)) extra_actions.

(** The router's URL patterns below the prefix of the view, as path
    segments, in the order the router tries them: [/], [/{url_path}/],
    [/{pk}/], [/{pk}/{url_path}/]; an action's [url_path] is its name.
    The first pattern that matches decides. *)
Definition route (m : http_method) (path : list string) : answer :=
  match path with
  | [] => dispatch m (get_method_map list_route)
  | [seg] =>
      match extra_action false seg with
      | Some a => dispatch m (action_map a)
      | None =>
          if bool_decide (lookup_value seg)
          then dispatch m (get_method_map detail_route)
          else NotFound
      end
  | [k; seg] =>
      if bool_decide (lookup_value k) then
        match extra_action true seg with
        | Some a => dispatch m (action_map a)
        | None => NotFound
        end
      else NotFound
  | _ => NotFound
  end.

End Views.

(** ** filters-example.py

    A filter set is declarative: each class attribute is a filter object
    built from a filter class and keyword arguments. The declarations are
    kept as written; [lookup_of] reads one the way the filter library does
    (its defaults for the arguments left out). *)

Module Filters.

Inductive filter_class :=
| ChoiceFilter
| MultipleChoiceFilter
| NumberFilter
| DateFilter
| CharFilter
| BooleanFilter
| DateFromToRangeFilter
| BaseInFilter
| OrderingFilter.

#[global] Instance filter_class_eq_dec : EqDecision filter_class.
Proof. solve_decision. Defined.

(** The value of a keyword argument. *)
Inductive arg :=
| Name (s : string)
| Flag (b : bool)
| Choices (cs : list (string * str))
| Fields (fs : list (string * string)).

#[global] Instance arg_eq_dec : EqDecision arg.
Proof. solve_decision. Defined.

(** [param = filters.cls(kwargs)] *)
Record decl := Decl {
  param : string;
  cls : filter_class;
  kwargs : list (string * arg)
}.

#[global] Instance decl_eq_dec : EqDecision decl.
Proof. solve_decision. Defined.

Definition ArticleFilter : list decl :=
  [ Decl "status" ChoiceFilter
      [ ("choices", Choices [ ("draft", [0x8349; 0x7A3F]%N);
                              ("published", [0x5DF2; 0x53D1; 0x5E03]%N);
                              ("archived", [0x5DF2; 0x5F52; 0x6863]%N) ]) ];
    Decl "author" NumberFilter [ ("field_name", Name "author_id") ];
    Decl "created_after" DateFilter
      [ ("field_name", Name "created_at"); ("lookup_expr", Name "gte") ];
    Decl "created_before" DateFilter
      [ ("field_name", Name "created_at"); ("lookup_expr", Name "lte") ];
    Decl "title" CharFilter
      [ ("field_name", Name "title"); ("lookup_expr", Name "icontains") ];
    Decl "author_name" CharFilter
      [ ("field_name", Name "author__username");
        ("lookup_expr", Name "icontains") ];
    Decl "tag" CharFilter
      [ ("field_name", Name "tags__name"); ("lookup_expr", Name "iexact") ] ].

Definition TrialFilter : list decl :=
  [ Decl "status" MultipleChoiceFilter
      [ ("choices", Choices [ ("recruiting", [0x62DB; 0x52DF; 0x4E2D]%N);
                              ("active", [0x8FDB; 0x884C; 0x4E2D]%N);
                              ("completed", [0x5DF2; 0x5B8C; 0x6210]%N) ]) ];
    Decl "budget_min" NumberFilter
      [ ("field_name", Name "budget"); ("lookup_expr", Name "gte") ];
    Decl "budget_max" NumberFilter
      [ ("field_name", Name "budget"); ("lookup_expr", Name "lte") ];
    Decl "is_public" BooleanFilter [ ("field_name", Name "is_public") ];
    Decl "created_date_range" DateFromToRangeFilter
      [ ("field_name", Name "created_at") ];
    Decl "pi_name" CharFilter
      [ ("field_name", Name "principal_investigator__name");
        ("lookup_expr", Name "icontains") ];
    Decl "has_participants" BooleanFilter
      [ ("method", Name "filter_has_participants") ];
    Decl "ordering" OrderingFilter
      [ ("fields", Fields [ ("created_at", "created_at");
                            ("updated_at", "updated_at");
                            ("budget", "budget") ]) ] ].

Definition AdvancedTrialFilter : list decl :=
  [ Decl "search" CharFilter [ ("method", Name "filter_search") ];
    Decl "created_year" NumberFilter [ ("field_name", Name "created_at__year") ];
    Decl "created_month" NumberFilter
      [ ("field_name", Name "created_at__month") ];
    Decl "status_in" BaseInFilter [ ("field_name", Name "status") ];
    Decl "exclude_status" CharFilter
      [ ("field_name", Name "status"); ("exclude", Flag true) ] ].

(** [Meta.fields]: model fields with the lookups to generate filters for
    (a plain list of names stands for [exact] each). *)
Definition ArticleFilter_Meta_fields : list (string * list string) :=
  [ ("status", ["exact"]); ("author", ["exact"]);
    ("created_after", ["exact"]); ("created_before", ["exact"]) ].

Definition TrialFilter_Meta_fields : list (string * list string) :=
  [ ("status", ["exact"; "in"]);
    ("budget", ["gte"; "lte"; "exact"]);
    ("created_at", ["gte"; "lte"]) ].

Definition AdvancedTrialFilter_Meta_fields : list (string * list string) := [].

(** All filters declared as class attributes, and all lookups named in a
    [Meta.fields]. *)
Definition declarations : list decl :=
  ArticleFilter ++ TrialFilter ++ AdvancedTrialFilter.

Definition meta_lookups : list string :=
  mjoin (snd <$> (ArticleFilter_Meta_fields ++ TrialFilter_Meta_fields
                  ++ AdvancedTrialFilter_Meta_fields)).

(** What a declared filter does with its parameter: a lookup expression on
    a model field, a method of the filter set, or an ordering. *)
Inductive lookup :=
| Lookup (field expr : string)
| Method (method : string)
| Ordering (fs : list (string * string)).

#[global] Instance lookup_eq_dec : EqDecision lookup.
Proof. solve_decision. Defined.

Fixpoint kw (key : string) (kwargs : list (string * arg)) : option arg :=
  match kwargs with
  | [] => None
  | (k, v) :: rest => if bool_decide (k = key) then Some v else kw key rest
  end.

Definition kw_name (key : string) (d : decl) : option string :=
  match kw key (kwargs d) with Some (Name s) => Some s | _ => None end.

(** The lookup expression of a filter built without [lookup_expr]:
    [BaseInFilter] sets [in], a range filter compares with both bounds,
    every other class uses the library default [exact]. *)
Definition default_lookup_expr (c : filter_class) : string :=
  match c with
  | BaseInFilter => "in"
  | DateFromToRangeFilter => "range"
  | _ => "exact"
  end.

(** [field_name] defaults to the attribute's name. *)
Definition lookup_of (d : decl) : lookup :=
  match cls d with
  | OrderingFilter =>
      Ordering (match kw "fields" (kwargs d) with
                | Some (Fields fs) => fs
                | _ => []
                end)
  | c =>
      match kw_name "method" d with
      | Some m => Method m
      | None =>
          Lookup (default (param d) (kw_name "field_name" d))
                 (default (default_lookup_expr c) (kw_name "lookup_expr" d))
      end
  end.

(** The filter a filter set declares under a parameter name. *)
Definition declared (fs : list decl) (p : string) : option decl :=
  find (λ d, bool_decide (param d = p)) fs.

(** [exclude=True] turns the filter into its negation. *)
Definition excludes (d : decl) : bool :=
  match kw "exclude" (kwargs d) with Some (Flag b) => b | _ => false end.

(** The lookup expressions the specification lists. *)
Definition listed_exprs : list string := ["exact"; "icontains"; "gte"; "lte"].

Definition listed (l : lookup) : Prop :=
  match l with
  | Lookup _ expr => expr ∈ listed_exprs
  | Method _ => True
  | Ordering _ => False
  end.

#[global] Instance listed_dec l : Decision (listed l).
Proof. destruct l; simpl; apply _. Defined.

(** The same list with the three further expressions the declarations
    use, the two methods by name, and the ordering filter admitted. *)
Definition used_exprs : list string := listed_exprs ++ ["iexact"; "in"; "range"].

Definition used (l : lookup) : Prop :=
  match l with
  | Lookup _ expr => expr ∈ used_exprs
  | Method m => m ∈ ["filter_has_participants"; "filter_search"]
  | Ordering fs => fs.*1 = ["created_at"; "updated_at"; "budget"]
  end.

#[global] Instance used_dec l : Decision (used l).
Proof. destruct l; simpl; apply _. Defined.

(** The model fields the declarations look up with a given expression. *)
Definition fields_with (expr : string) (ds : list decl) : list string :=
  omap (λ d, match lookup_of d with
             | Lookup f e => if bool_decide (e = expr) then Some f else None
             | _ => None
             end) ds.

(** *** The filter methods

    A queryset of trials is the list of its rows. [models.py] is not part
    of the templates: the participants of a trial (the relation behind
    [participants__isnull]), the name of its principal investigator (the
    column behind [principal_investigator__name]) and the case mapping the
    database compares with are taken as they come. *)

(** [queryset.filter(participants__isnull=False)]: the join gives a trial
    once for each of its participants. *)
Definition with_participants (participants : nat → list nat)
  (queryset : list row) : list row :=
  queryset ≫= λ t, (λ _, t) <$> participants (pk t).

(** [queryset.filter(participants__isnull=True)]: the trials the join finds
    no participant for. *)
Definition without_participants (participants : nat → list nat)
  (queryset : list row) : list row :=
  filter (λ t, participants (pk t) = []) queryset.

(** [queryset.distinct()] *)
Definition distinct (queryset : list row) : list row := remove_dups queryset.

Definition filter_has_participants (participants : nat → list nat)
  (queryset : list row) (name : string) (value : bool) : list row :=
  if value then distinct (with_participants participants queryset)
  else without_participants participants queryset.

(** [needle] occurs in [s] as a run of consecutive characters. *)
Fixpoint occurs_in (needle s : str) : bool :=
  bool_decide (needle `prefix_of` s)
  || match s with
     | [] => false
     | _ :: s' => occurs_in needle s'
     end.

(** [column__icontains=needle]: the column holds text in which the needle
    occurs, both taken through the case mapping [fold]. *)
Definition icontains (fold : N → N) (needle : str) (column : value) : bool :=
  match column with
  | Scalar (PyStr s) => occurs_in (fold <$> needle) (fold <$> s)
  | _ => false
  end.

Definition filter_search (fold : N → N) (pi_name : row → value)
  (queryset : list row) (name : string) (value : str) : list row :=
  filter (λ t, icontains fold value (getattr t "title")
               || icontains fold value (getattr t "description")
               || icontains fold value (pi_name t)) queryset.

End Filters.

(** ** The words of the specification *)

Import Views Filters.

(** The input of the cross-field rule has status "published". *)
Definition is_published (attrs : gmap string value) : Prop :=
  attrs !! "status" = Some (Scalar (PyStr (lit "published"))).

(** The input has no summary: the key is missing, or what it holds counts
    as false ([None], an empty string). *)
Definition no_summary (attrs : gmap string value) : Prop :=
  ∀ v, attrs !! "summary" = Some v → truthy v = false.

(** The filter backends only select among the rows they are given, and a
    page holds rows of the queryset it pages. *)
Definition backends_select {R} (self : generic R) : Prop :=
  ∀ request qs, filter_queryset self request qs ⊆ qs.

Definition pages_select {R} (self : generic R) : Prop :=
  ∀ request qs page, paginate_queryset self request qs = Some page → page ⊆ qs.

(** The rows a response shows, rendered by a serializer class. *)
Definition shows {R} (self : generic R) (c : serializer_class)
  (resp : Response R) (rows : list row) : Prop :=
  data resp = Page (to_representation self c <$> rows)
  ∨ data resp = Items (to_representation self c <$> rows).

(** Two states of the article table that differ at most in the column
    [column] of the row [k]. *)
Definition differ_at_most (k : nat) (column : string) (before after : list row)
  : Prop :=
  Forall2 (λ r r', pk r' = pk r
                   ∧ (pk r ≠ k → r' = r)
                   ∧ ∀ f, f ≠ column → fields r' !! f = fields r !! f)
          before after.

(** The articles under the key [k] that [publish] can be given: those of
    the requester's queryset that the filter backends let through. *)
Definition retrievable {R} (self : generic R) (request : Request) (k : nat)
  (d : db) : list row :=
  filter (λ r, pk r = k)
    (filter_queryset self request (ArticleViewSet.get_queryset request d)).

(** "For every article": whatever article of the table the request names,
    [publish] answers by its status alone, 400 with the message when it is
    published, and otherwise not 400 but the serialized article, with the
    status set. *)
Definition publish_by_status {R} (self : generic R) (request : Request)
  (d : db) : Prop :=
  ∀ article, article ∈ articles d →
    (getattr article "status" = Scalar (PyStr (lit "published")) →
     ArticleViewSet.publish self request (pk article) d
     = (Ok {| data := Detail {[ "detail" :=
                                  [0x6587; 0x7AE0; 0x5DF2; 0x53D1; 0x5E03]%N ]};
              status_code := 400 |}, d))
    ∧ (getattr article "status" ≠ Scalar (PyStr (lit "published")) →
       ∃ resp d',
         ArticleViewSet.publish self request (pk article) d = (Ok resp, d')
         ∧ status_code resp ≠ 400
         ∧ data resp
           = Item (to_representation self ArticleSerializer
                     (setattr article "status"
                        (Scalar (PyStr (lit "published")))))
         ∧ ∀ r, r ∈ articles d' → pk r = pk article →
                getattr r "status" = Scalar (PyStr (lit "published"))).

(** "Delegating entirely": what a user may see and what is created are
    what the base class alone produces. *)
Definition delegates_queryset (request : Request) (d : db) : Prop :=
  ArticleViewSet.get_queryset request d = ModelViewSet.get_queryset d.

Definition delegates_creation (request : Request) (s : serializer) (d : db)
  : Prop :=
  ArticleViewSet.perform_create request s d = ModelViewSet.perform_create s d.

(** A tag [t] is one that was got or created for a tag dict of [items]: a
    row of the tag table that matches the dict. *)
Definition got_or_created (items : list (gmap string scalar)) (d' : db)
  (t : nat) : Prop :=
  ∃ td row, td ∈ items ∧ row ∈ tags d' ∧ pk row = t
            ∧ matches (ArticleCreateSerializer.kwargs_of td) row.

(** From [d] to [d'] the tags of [items] were got or created and attached
    to the article [k]: the articles are as before; tag rows were only
    added, each made from a dict of [items]; the relation kept its pairs
    and gained only pairs of [k] with such tags; and every dict of [items]
    has its tag attached to [k]. *)
Definition tags_attached (k : nat) (items : list (gmap string scalar))
  (d d' : db) : Prop :=
  articles d' = articles d
  ∧ (∃ new, tags d' = tags d ++ new
            ∧ ∀ r, r ∈ new →
                ∃ td, td ∈ items
                      ∧ fields r = ArticleCreateSerializer.kwargs_of td)
  ∧ article_tags d ⊆ article_tags d'
  ∧ (∀ p, p ∈ article_tags d' →
          p ∈ article_tags d ∨ (p.1 = k ∧ got_or_created items d' p.2))
  ∧ (∀ td, td ∈ items →
           ∃ row, row ∈ tags d'
                  ∧ matches (ArticleCreateSerializer.kwargs_of td) row
                  ∧ (k, pk row) ∈ article_tags d').

(** The tag dicts under "tags" of a validated input, when it has a list
    there. *)
Definition tags_given (validated_data : gmap string value)
  (items : list (gmap string scalar)) : Prop :=
  validated_data !! "tags" = Some (PyList items).

(** Every article that a pair of the tag relation names is in the
    article table. *)
Definition relation_sound (d : db) : Prop :=
  ∀ p, p ∈ article_tags d → p.1 ∈ pk <$> articles d.

(** No tag dict of [items] is matched by two rows of the tag table, and
    the dicts all have the same keys (as the same nested serializer
    validated them). *)
Definition unambiguous (items : list (gmap string scalar)) (rows : list row)
  : Prop :=
  (∀ td, td ∈ items →
         length (filter (matches (ArticleCreateSerializer.kwargs_of td)) rows)
         ≤ 1)
  ∧ ∀ td td', td ∈ items → td' ∈ items → dom td = dom td'.

(** Every key of every tag dict of [items] names a field of the tag
    model, as the keys the nested serializer lets through do. *)
Definition tag_fields_known (items : list (gmap string scalar)) : Prop :=
  ∀ td, td ∈ items → accepted Tag (ArticleCreateSerializer.kwargs_of td).

(** Some keyword names neither a field of the model nor its primary
    key. *)
Definition unknown_keyword (m : model) (kwargs : gmap string value) : Prop :=
  ∃ k, k ∈ dom kwargs ∧ k ∉ "id" :: "pk" :: columns m.

(** From [d] to [d'] tags were created only where none was there: the tag
    table grew by rows of distinct contents, each made from a dict of
    [items] that no tag of [d] matched; and a tag of [d] that a dict of
    [items] matches is attached to the article [k]. *)
Definition tags_reused (k : nat) (items : list (gmap string scalar))
  (d d' : db) : Prop :=
  (∃ new, tags d' = tags d ++ new
          ∧ NoDup (fields <$> new)
          ∧ ∀ r, r ∈ new →
              ∃ td, td ∈ items
                    ∧ fields r = ArticleCreateSerializer.kwargs_of td
                    ∧ filter (matches (ArticleCreateSerializer.kwargs_of td))
                        (tags d) = [])
  ∧ ∀ td row, td ∈ items → row ∈ tags d →
              matches (ArticleCreateSerializer.kwargs_of td) row →
              (k, pk row) ∈ article_tags d'.

(** [save] stored the instance [r] in the article table: in place of the
    row with its primary key, or as a new last row when there was none. *)
Definition stored (r : row) (before after : list row) : Prop :=
  (pk r ∈ pk <$> before
   ∧ after = (λ x, if bool_decide (pk x = pk r) then r else x) <$> before)
  ∨ ((pk r ∉ pk <$> before) ∧ after = before ++ [r]).

(** The answer of [publish] to an article that is published already. *)
Definition refusal {R} : Response R :=
  {| data := Detail {[ "detail" := ArticleViewSet.already_published ]};
     status_code := 400 |}.

(** No two articles and no two tags share a primary key. *)
Definition keys_unique (d : db) : Prop :=
  NoDup (pk <$> articles d) ∧ NoDup (pk <$> tags d).

(** Every pair of the tag relation names an article and a tag that
    exist. *)
Definition integrity (d : db) : Prop :=
  ∀ p, p ∈ article_tags d →
       p.1 ∈ pk <$> articles d ∧ p.2 ∈ pk <$> tags d.

(** The value under "tags" is one the loop over the tags cannot run
    over: a scalar other than the empty string. *)
Definition malformed_tags (validated_data : gmap string value) : Prop :=
  ∃ s, validated_data !! "tags" = Some (Scalar s) ∧ s ≠ PyStr [].

(** ** Sample data

    A small database, two users and a view without filter backends or
    paginator, on which the statements below are run. *)

Module Sample.

Definition text (s : string) : value := Scalar (PyStr (lit s)).

Definition alice : User := {| user_pk := 7; is_staff := false |}.
Definition editor : User := {| user_pk := 1; is_staff := true |}.

Definition by_alice : Request := {| user := alice; query_params := [] |}.
Definition by_editor : Request := {| user := editor; query_params := [] |}.

Definition article (k : nat) (title status : string) (author : User) : row :=
  Row k {[ "title" := text title; "status" := text status;
           "author" := user_ref author ]}.

Definition notes : row := article 1 "Field notes" "draft" alice.
Definition guide : row := article 2 "Style guide" "published" alice.
Definition news : row := article 3 "Release news" "published" editor.

Definition python : row := Row 1 {[ "name" := text "python" ]}.
Definition django : row := Row 2 {[ "name" := text "django" ]}.

Definition store : db := Db [notes; guide; news] [python; django] {[ (2, 1) ]}.

(** The store after the draft was published. *)
Definition released : db :=
  Db [article 1 "Field notes" "published" alice; guide; news]
     [python; django] {[ (2, 1) ]}.

(** A view whose backends keep every row, that has no paginator, and that
    renders an instance as itself. *)
Definition plain : generic row := {|
  filter_queryset := λ _ qs, qs;
  paginate_queryset := λ _ _, None;
  to_representation := λ _ r, r
|}.

(** A valid serializer of the default kind: [create] inserts a row. *)
Definition incoming : serializer := {|
  validated_data := {[ "title" := text "A new article" ]};
  serializer_create := ORM.create Article
|}.

(** Validated data of [ArticleCreateSerializer]: with two tag dicts, one
    of a tag that exists and one of a tag that does not; and without the
    "tags" key (a partial update). *)
Definition tag_dicts : list (gmap string scalar) :=
  [ {[ "name" := PyStr (lit "python") ]}; {[ "name" := PyStr (lit "rust") ]} ].

Definition tagged : gmap string value :=
  {[ "title" := text "Ownership"; "tags" := PyList tag_dicts ]}.

Definition revision : gmap string value :=
  {[ "title" := text "Style guide, revised"; "status" := text "archived" ]}.

(** Validated data whose "tags" is a number. *)
Definition broken : gmap string value :=
  {[ "title" := text "Notes"; "tags" := Scalar (PyInt 3) ]}.

(** The guide and the store after [update guide tagged]. *)
Definition retitled : row :=
  Row 2 {[ "title" := text "Ownership"; "status" := text "published";
           "author" := user_ref alice ]}.

Definition retagged : db :=
  Db [notes; retitled; news]
     [python; django; Row 3 {[ "name" := text "rust" ]}]
     {[ (2, 1); (2, 3) ]}.

(** Three trials, the participants of each, and a database that compares
    ASCII letters without case. No trial has a principal investigator. *)
Definition trial (k : nat) (title description : string) : row :=
  Row k {[ "title" := text title; "description" := text description ]}.

Definition trials : list row :=
  [ trial 1 "Asthma in children" "Inhaler study";
    trial 2 "Sleep" "Effects of caffeine on sleep";
    trial 3 "Knee surgery" "Recovery and SLEEP quality" ].

Definition enrolled (k : nat) : list nat :=
  match k with 1 => [10; 11] | 3 => [12] | _ => [] end.

Definition lower (c : N) : N :=
  if ((65 <=? c) && (c <=? 90))%N then (c + 32)%N else c.

Definition no_investigator (t : row) : value := Scalar PyNone.

End Sample.

(** * Properties *)

(** ** Validation (serializer-example.py) *)

Section Validation.

Import ArticleSerializer.

Lemma eq_str_get attrs key s :
  eq_str (get attrs key) s = true ↔ attrs !! key = Some (Scalar (PyStr s)).
Proof.
  unfold eq_str, get. rewrite bool_decide_eq_true.
  destruct (attrs !! key) as [v|]; simpl; split; congruence.
Qed.

Lemma truthy_get attrs key :
  truthy (get attrs key) = false ↔
  (∀ v, attrs !! key = Some v → truthy v = false).
Proof.
  unfold get. destruct (attrs !! key) as [v|]; simpl; split; try done.
  - by intros H w [= <-].
  - intros H. by apply H.
Qed.

(** For a summary that is text, "no summary" is the empty string. *)
Lemma no_summary_text attrs s :
  attrs !! "summary" = Some (Scalar (PyStr s)) → no_summary attrs ↔ s = [].
Proof.
  intros Hs. unfold no_summary. rewrite Hs. split.
  - intros H. specialize (H _ eq_refl). by destruct s.
  - intros -> v [= <-]. done.
Qed.

Lemma no_summary_missing attrs : attrs !! "summary" = None → no_summary attrs.
Proof. intros H v. by rewrite H. Qed.

Lemma validate_title_short title :
  len title < 5 →
  validate_title title = Raise (ValidationError (Message title_too_short)).
Proof.
  intros H. unfold validate_title.
  by destruct (Nat.ltb_spec (len title) 5); [|lia].
Qed.

Lemma validate_title_long title : 5 ≤ len title → validate_title title = Ok title.
Proof.
  intros H. unfold validate_title.
  by destruct (Nat.ltb_spec (len title) 5); [lia|].
Qed.

Lemma validate_raises attrs :
  is_published attrs → no_summary attrs →
  validate attrs =
    Raise (ValidationError (ByField {[ "summary" := summary_required ]})).
Proof.
  intros Hp%eq_str_get Hs%truthy_get. unfold validate. by rewrite Hp, Hs.
Qed.

Lemma validate_passes attrs :
  ¬ (is_published attrs ∧ no_summary attrs) → validate attrs = Ok attrs.
Proof.
  intros H. unfold validate.
  destruct (eq_str _ _) eqn:Hp; [|done].
  destruct (truthy _) eqn:Hs; [done|].
  exfalso. apply H. split; [by apply eq_str_get | exact (proj1 (truthy_get attrs "summary") Hs)].
Qed.

(** C3: [validate_title] raises a validation error for every title of
    fewer than 5 characters and returns every other title unchanged;
    [validate] raises a validation error on the "summary" key for every
    input with status "published" and no summary, and returns every other
    input unchanged. *)
Theorem validation_raises_exactly_when_violated :
  (∀ title : str,
     (len title < 5 →
      validate_title title = Raise (ValidationError (Message title_too_short)))
     ∧ (¬ len title < 5 → validate_title title = Ok title))
  ∧ (∀ attrs : gmap string value,
     (is_published attrs ∧ no_summary attrs →
      validate attrs =
        Raise (ValidationError (ByField {[ "summary" := summary_required ]})))
     ∧ (¬ (is_published attrs ∧ no_summary attrs) → validate attrs = Ok attrs)).
Proof.
  split.
  - intros title. split; [apply validate_title_short|].
    intros H. apply validate_title_long. lia.
  - intros attrs. split; [|apply validate_passes].
    intros [??]. by apply validate_raises.
Qed.

(** Characters are code points: a title of five CJK characters passes,
    one of four ASCII characters does not. *)
Example validate_title_five_characters :
  validate_title [0x6587; 0x7AE0; 0x5DF2; 0x53D1; 0x5E03]%N
  = Ok [0x6587; 0x7AE0; 0x5DF2; 0x53D1; 0x5E03]%N
  ∧ validate_title (lit "Test")
    = Raise (ValidationError (Message title_too_short)).
Proof. split; reflexivity. Qed.

Example validate_examples :
  let draft : gmap string value :=
    {[ "status" := Scalar (PyStr (lit "draft")) ]} in
  let bare : gmap string value :=
    {[ "status" := Scalar (PyStr (lit "published")) ]} in
  let empty : gmap string value :=
    <[ "summary" := Scalar (PyStr []) ]> bare in
  let full : gmap string value :=
    <[ "summary" := Scalar (PyStr (lit "About")) ]> bare in
  validate draft = Ok draft
  ∧ validate full = Ok full
  ∧ validate bare
    = Raise (ValidationError (ByField {[ "summary" := summary_required ]}))
  ∧ validate empty
    = Raise (ValidationError (ByField {[ "summary" := summary_required ]})).
Proof. repeat split; vm_compute; reflexivity. Qed.

End Validation.

(** ** The view (viewset-example.py) *)

Section View.

Import ArticleViewSet.

Context {R : Type} (self : generic R).

(** [.get] returns a row of the queryset that satisfies the condition. *)
Lemma qs_get_Ok (P : row → Prop) `{∀ r, Decision (P r)} qs r :
  qs_get P qs = Ok r → r ∈ qs ∧ P r.
Proof.
  unfold qs_get. intros Hget.
  destruct (filter P qs) as [|r0 [|??]] eqn:Hf; simplify_eq.
  assert (r ∈ filter P qs) as [??]%list_elem_of_filter; [|done].
  rewrite Hf. by left.
Qed.

Lemma get_object_Ok request k d article d' :
  ModelViewSet.get_object self get_queryset request k d = (Ok article, d') →
  d' = d ∧ pk article = k
  ∧ article ∈ filter_queryset self request (get_queryset request d).
Proof.
  unfold ModelViewSet.get_object. intros Hget.
  destruct (qs_get _ _) as [obj|e] eqn:Hq.
  - simplify_eq. apply qs_get_Ok in Hq as [??]. done.
  - destruct e; simplify_eq.
Qed.

Lemma get_object_Raise request k d e d' :
  ModelViewSet.get_object self get_queryset request k d = (Raise e, d') → d' = d.
Proof.
  unfold ModelViewSet.get_object.
  destruct (qs_get _ _) as [obj|[]]; by intros [= <- <-] || intros [= <-].
Qed.

Lemma get_queryset_subset request d :
  get_queryset request d ⊆ articles d.
Proof.
  unfold get_queryset, ModelViewSet.get_queryset, qs_filter. simpl.
  destruct (is_staff _); simpl; [done|].
  intros r [??]%list_elem_of_filter. done.
Qed.

Lemma getattr_published r :
  fields r !! "status" = Some published ↔ getattr r "status" = published.
Proof.
  unfold getattr, get, published.
  destruct (fields r !! "status"); simpl; split; congruence.
Qed.

Lemma eq_str_published v : eq_str v (lit "published") = true ↔ v = published.
Proof. unfold eq_str. by rewrite bool_decide_eq_true. Qed.

Lemma differ_at_most_refl k column rows : differ_at_most k column rows rows.
Proof. apply Forall_Forall2_diag, Forall_forall. by intros. Qed.

(** [save(update_fields=[column])] writes one column of the rows with the
    instance's primary key, or raises and writes nothing. *)
Lemma save_one_column instance column d res d' :
  ORM.save instance (Some [column]) d = (res, d') →
  tags d' = tags d ∧ article_tags d' = article_tags d
  ∧ differ_at_most (pk instance) column (articles d) (articles d').
Proof.
  unfold ORM.save. case_bool_decide; intros [= <- <-]; simpl;
    [|auto using differ_at_most_refl].
  split_and!; [done..|].
  apply Forall2_fmap_r, Forall_Forall2_diag, Forall_forall.
  intros r _. simpl. case_bool_decide; simpl; [|done].
  split_and!; [done..|]. intros f Hf. by rewrite lookup_insert_ne.
Qed.

Lemma save_one_column_Ok instance column d :
  pk instance ∈ pk <$> articles d →
  ∃ d', ORM.save instance (Some [column]) d = (Ok (), d')
      ∧ (∃ r, r ∈ articles d' ∧ pk r = pk instance)
      ∧ ∀ r, r ∈ articles d' → pk r = pk instance →
             getattr r column = getattr instance column.
Proof.
  intros Hin. unfold ORM.save. rewrite bool_decide_eq_true_2 by done.
  eexists. split; [done|]. simpl. split.
  - apply list_elem_of_fmap in Hin as (r & Hpk & Hr).
    eexists. split; [apply list_elem_of_fmap; eauto|].
    rewrite bool_decide_eq_true_2 by done. done.
  - intros r' (r & -> & Hr)%list_elem_of_fmap.
    case_bool_decide; simpl; [|done].
    intros _. unfold getattr at 1, get. simpl. by rewrite lookup_insert_eq.
Qed.

Lemma filter_none {A} (P : A → Prop) `{∀ x, Decision (P x)} (l : list A) :
  (∀ x, x ∈ l → ¬ P x) → filter P l = [].
Proof.
  intros Hnone. destruct (filter P l) as [|x ?] eqn:Hf; [done|].
  assert (x ∈ filter P l) as [? ?]%list_elem_of_filter by (rewrite Hf; by left).
  by destruct (Hnone x).
Qed.

Lemma get_object_one request k d article :
  retrievable self request k d = [article] →
  ModelViewSet.get_object self get_queryset request k d = (Ok article, d).
Proof.
  unfold retrievable, ModelViewSet.get_object, qs_get. by intros ->.
Qed.

Lemma get_object_none request k d :
  retrievable self request k d = [] →
  ModelViewSet.get_object self get_queryset request k d = (Raise Http404, d).
Proof.
  unfold retrievable, ModelViewSet.get_object, qs_get. by intros ->.
Qed.

(** A user who is not staff can retrieve no article that is not
    published. *)
Lemma retrievable_non_staff request k d :
  backends_select self →
  is_staff (user request) = false →
  (∀ a, a ∈ articles d → pk a = k → getattr a "status" ≠ published) →
  retrievable self request k d = [].
Proof.
  intros Hsel Hstaff Hdraft. apply filter_none. intros a Ha%Hsel Hk.
  revert Ha. unfold get_queryset, ModelViewSet.get_queryset, qs_filter.
  rewrite Hstaff. simpl. intros [Hp Ha]%list_elem_of_filter.
  apply (Hdraft a Ha Hk). by apply getattr_published.
Qed.

(** C1: for the article under the key that the requester can retrieve
    (any article for staff, only a published one for anyone else):
    when it is already published, publish answers 400 with the message
    and leaves the database as it is; when it is not, publish does not
    answer 400: it stores status "published" for the article and answers
    with the serialized article. When the requester can retrieve no
    article under the key, as a user who is not staff cannot retrieve an
    article that is not published, publish answers neither: it raises
    [Http404] and leaves the database as it is. *)
Theorem publish_rejects_published_only request k d :
  backends_select self →
  (∀ article,
     retrievable self request k d = [article] →
     (getattr article "status" = Scalar (PyStr (lit "published")) →
      publish self request k d
      = (Ok {| data := Detail {[ "detail" :=
                                   [0x6587; 0x7AE0; 0x5DF2; 0x53D1; 0x5E03]%N ]};
               status_code := 400 |}, d))
     ∧ (getattr article "status" ≠ Scalar (PyStr (lit "published")) →
        ∃ d',
          publish self request k d
          = (Ok {| data := Item (to_representation self ArticleSerializer
                                   (setattr article "status"
                                      (Scalar (PyStr (lit "published")))));
                   status_code := 200 |}, d')
          ∧ (∃ r, r ∈ articles d' ∧ pk r = k)
          ∧ ∀ r, r ∈ articles d' → pk r = k →
                 getattr r "status" = Scalar (PyStr (lit "published"))))
  ∧ (retrievable self request k d = [] →
     publish self request k d = (Raise Http404, d))
  ∧ (is_staff (user request) = false →
     (∀ a, a ∈ articles d → pk a = k →
           getattr a "status" ≠ Scalar (PyStr (lit "published"))) →
     publish self request k d = (Raise Http404, d)).
Proof.
  intros Hsel.
  assert (retrievable self request k d = [] →
          publish self request k d = (Raise Http404, d)) as Hnone.
  { intros Hget%get_object_none. unfold publish, mbind, M_bind.
    by rewrite Hget. }
  split_and!; [|done|].
  - intros article Hone. pose proof (get_object_one _ _ _ _ Hone) as Hget.
    pose proof Hget as (_ & Hk & Hin)%get_object_Ok.
    unfold publish, mbind, M_bind. rewrite Hget. split.
    + intros Hp%eq_str_published. by rewrite Hp.
    + intros Hp. rewrite <- eq_str_published in Hp.
      apply not_true_is_false in Hp. rewrite Hp.
      destruct (save_one_column_Ok (setattr article "status" published)
                  "status" d) as (d' & Hsave & Hrow & Hst).
      { simpl. apply list_elem_of_fmap. exists article. split; [done|].
        by apply get_queryset_subset with request, Hsel with request. }
      exists d'. rewrite Hsave. simpl in *. subst k. split_and!; [done..|].
      intros r Hr Hpk. rewrite (Hst r Hr Hpk).
      unfold getattr, get. simpl. by rewrite lookup_insert_eq.
  - intros Hstaff Hdraft. by apply Hnone, retrievable_non_staff.
Qed.

(** C8: whatever publish answers, it changes at most the status column of
    the article it was called for: the tags, the tag relation, every other
    article and every other column stay as they were; and when it answers
    400 the database is unchanged altogether. *)
Theorem publish_touches_only_status request k d res d' :
  publish self request k d = (res, d') →
  tags d' = tags d ∧ article_tags d' = article_tags d
  ∧ differ_at_most k "status" (articles d) (articles d')
  ∧ (∀ resp, res = Ok resp → status_code resp = 400 → d' = d)
  ∧ (∀ e, res = Raise e → d' = d).
Proof.
  unfold publish, mbind, M_bind.
  destruct (ModelViewSet.get_object _ _ _ _ _) as [[article|e] d1] eqn:Hget.
  - apply get_object_Ok in Hget as (-> & <- & _).
    destruct (eq_str _ _).
    + intros [= <- <-]. auto 10 using differ_at_most_refl.
    + destruct (ORM.save _ _ _) as [[[]|e] d2] eqn:Hsave; intros [= <- <-];
        pose proof Hsave as (? & ? & ?)%save_one_column;
        split_and!; try done.
      * intros resp [= <-]. unfold HTTP_200_OK. simpl. lia.
      * intros e' _. revert Hsave. unfold ORM.save.
        case_bool_decide; by intros [= <-].
  - apply get_object_Raise in Hget as ->. intros [= <- <-].
    auto 10 using differ_at_most_refl.
Qed.

Lemma get_queryset_non_staff request d a :
  is_staff (user request) = false →
  a ∈ get_queryset request d ↔ a ∈ articles d ∧ getattr a "status" = published.
Proof.
  intros Hstaff. unfold get_queryset, ModelViewSet.get_queryset, qs_filter.
  rewrite Hstaff. simpl. rewrite list_elem_of_filter, getattr_published.
  tauto.
Qed.

(** C9: for a user who is not staff, every article of [get_queryset] has
    status "published"; so [my_articles] answers such a user with articles
    of the table that are the user's own and published, none of them a
    draft or archived. *)
Theorem non_staff_sees_only_published request d :
  is_staff (user request) = false →
  pages_select self →
  (∀ a, a ∈ get_queryset request d → getattr a "status" = published)
  ∧ ∃ resp shown,
      my_articles self request d = (Ok resp, d)
      ∧ shows self ArticleSerializer resp shown
      ∧ ∀ a, a ∈ shown →
          a ∈ articles d
          ∧ getattr a "author" = user_ref (user request)
          ∧ getattr a "status" = published
          ∧ getattr a "status" ≠ Scalar (PyStr (lit "draft"))
          ∧ getattr a "status" ≠ Scalar (PyStr (lit "archived")).
Proof.
  intros Hstaff Hpages. split.
  { intros a Ha. by apply get_queryset_non_staff in Ha as [_ ?]. }
  set (mine := qs_filter "author" (user_ref (user request))
                 (get_queryset request d)).
  assert (∀ a, a ∈ mine →
            a ∈ articles d ∧ getattr a "author" = user_ref (user request)
            ∧ getattr a "status" = published
            ∧ getattr a "status" ≠ Scalar (PyStr (lit "draft"))
            ∧ getattr a "status" ≠ Scalar (PyStr (lit "archived")))
    as Hmine.
  { intros a [Hauthor Ha]%list_elem_of_filter.
    apply get_queryset_non_staff in Ha as [? Hp]; [|done].
    split_and!; [done| |done|by rewrite Hp..].
    unfold getattr, get. by rewrite Hauthor. }
  unfold my_articles, mbind, M_bind, read. fold mine.
  destruct (paginate_queryset self request mine) as [page|] eqn:Hpage.
  - eexists _, page. split_and!; [done|by left|].
    intros a Ha. apply Hmine, (Hpages _ _ _ Hpage), Ha.
  - eexists _, mine. split_and!; [done|by right|done].
Qed.

(** C2, as the code has it: the view narrows what the base class returns
    and adds to what it stores. A staff user gets the base queryset; any
    other user gets its articles with status "published", in the same
    order; and [perform_create] is the base [perform_create] run on the
    validated data with "author" set to the requesting user. *)
Theorem view_narrows_and_assigns request d s :
  (is_staff (user request) = true →
   get_queryset request d = ModelViewSet.get_queryset d)
  ∧ (is_staff (user request) = false →
     get_queryset request d
     = filter (λ a, getattr a "status" = published)
         (ModelViewSet.get_queryset d))
  ∧ get_queryset request d ⊆ ModelViewSet.get_queryset d
  ∧ perform_create request s d
    = ModelViewSet.perform_create
        {| validated_data :=
             <[ "author" := user_ref (user request) ]> (validated_data s);
           serializer_create := serializer_create s |} d.
Proof.
  split_and!.
  - intros Hstaff. unfold get_queryset. by rewrite Hstaff.
  - intros Hstaff. unfold get_queryset, qs_filter. rewrite Hstaff. simpl.
    apply list_filter_iff. intros a. apply getattr_published.
  - apply get_queryset_subset.
  - unfold perform_create, ModelViewSet.perform_create, ModelViewSet.save.
    simpl. by rewrite <- insert_union_singleton_l, (left_id_L ∅ (∪)).
Qed.

End View.

(** *** The view on the sample data *)

Section ViewSample.

Import ArticleViewSet Sample.

Lemma plain_backends_select : backends_select plain.
Proof. by intros ??. Qed.

Lemma plain_pages_select : pages_select plain.
Proof. by intros ???. Qed.

(** The editor asks for the draft of Alice: it is published. *)
Lemma publish_rejects_published_only_witness :
  (∀ article,
     retrievable plain by_editor 1 store = [article] →
     (getattr article "status" = Scalar (PyStr (lit "published")) →
      publish plain by_editor 1 store
      = (Ok {| data := Detail {[ "detail" :=
                                   [0x6587; 0x7AE0; 0x5DF2; 0x53D1; 0x5E03]%N ]};
               status_code := 400 |}, store))
     ∧ (getattr article "status" ≠ Scalar (PyStr (lit "published")) →
        ∃ d',
          publish plain by_editor 1 store
          = (Ok {| data := Item (to_representation plain ArticleSerializer
                                   (setattr article "status"
                                      (Scalar (PyStr (lit "published")))));
                   status_code := 200 |}, d')
          ∧ (∃ r, r ∈ articles d' ∧ pk r = 1)
          ∧ ∀ r, r ∈ articles d' → pk r = 1 →
                 getattr r "status" = Scalar (PyStr (lit "published"))))
  ∧ (retrievable plain by_editor 1 store = [] →
     publish plain by_editor 1 store = (Raise Http404, store))
  ∧ (is_staff (user by_editor) = false →
     (∀ a, a ∈ articles store → pk a = 1 →
           getattr a "status" ≠ Scalar (PyStr (lit "published"))) →
     publish plain by_editor 1 store = (Raise Http404, store)).
Proof.
  apply (publish_rejects_published_only plain by_editor 1 store).
  exact plain_backends_select.
Defined.

(** C1, as the claim words it, fails on the sample data: the draft of
    Alice is an article whose status is not "published", and when Alice,
    who is not staff, asks to publish it, the answer is not the serialized
    article but 404. *)
Lemma publish_does_not_reach_every_article :
  ¬ publish_by_status plain by_alice store.
Proof.
  intros Hall. destruct (Hall notes) as [_ Hdraft].
  { by apply (bool_decide_eq_true_1 _). }
  destruct Hdraft as (resp & d' & Hrun & _).
  { intros Hp. vm_compute in Hp. discriminate. }
  vm_compute in Hrun. discriminate.
Qed.

(** For staff the claim holds as worded on the sample data. *)
Example publish_by_status_for_staff : publish_by_status plain by_editor store.
Proof.
  intros article Ha. unfold store in Ha. simpl in Ha.
  repeat (apply elem_of_cons in Ha as [->|Ha]);
    [..|by apply elem_of_nil in Ha];
    (split; [intros Hp|intros Hp]);
    try (vm_compute in Hp; discriminate);
    try (exfalso; apply Hp; vm_compute; reflexivity);
    try (vm_compute; reflexivity).
  eexists _, _. split; [vm_compute; reflexivity|].
  split; [simpl; lia|]. split; [vm_compute; reflexivity|].
  simpl. intros r Hr Hk.
  repeat (apply elem_of_cons in Hr as [->|Hr]);
    [..|by apply elem_of_nil in Hr]; try (simpl in Hk; lia).
  vm_compute. reflexivity.
Qed.

Example publish_draft_then_again :
  ∃ d',
    publish plain by_editor 1 store
    = (Ok {| data := Item (article 1 "Field notes" "published" alice);
             status_code := 200 |}, d')
    ∧ articles d' = [article 1 "Field notes" "published" alice; guide; news]
    ∧ publish plain by_editor 1 d'
      = (Ok {| data := Detail {[ "detail" := already_published ]};
               status_code := 400 |}, d').
Proof. eexists. split_and!; vm_compute; reflexivity. Qed.

(** The draft is not in the queryset of a user who is not staff: for such
    a user the draft cannot be found, and a published article cannot be
    published again. *)
Example publish_by_non_staff :
  publish plain by_alice 1 store = (Raise Http404, store)
  ∧ publish plain by_alice 2 store
    = (Ok {| data := Detail {[ "detail" := already_published ]};
             status_code := 400 |}, store).
Proof. split; vm_compute; reflexivity. Qed.

Lemma publish_touches_only_status_witness :
  let d' := Db [article 1 "Field notes" "published" alice; guide; news]
               [python; django] {[ (2, 1) ]} in
  tags d' = tags store ∧ article_tags d' = article_tags store
  ∧ differ_at_most 1 "status" (articles store) (articles d')
  ∧ (∀ resp,
       Ok {| data := Item (article 1 "Field notes" "published" alice);
             status_code := 200 |} = Ok resp →
       status_code resp = 400 → d' = store)
  ∧ (∀ e,
       Ok {| data := Item (article 1 "Field notes" "published" alice);
             status_code := 200 |} = Raise e → d' = store).
Proof.
  apply (publish_touches_only_status plain by_editor 1 store).
  vm_compute. reflexivity.
Defined.

Lemma non_staff_sees_only_published_witness :
  (∀ a, a ∈ get_queryset by_alice store → getattr a "status" = published)
  ∧ ∃ resp shown,
      my_articles plain by_alice store = (Ok resp, store)
      ∧ shows plain ArticleSerializer resp shown
      ∧ ∀ a, a ∈ shown →
          a ∈ articles store
          ∧ getattr a "author" = user_ref (user by_alice)
          ∧ getattr a "status" = published
          ∧ getattr a "status" ≠ Scalar (PyStr (lit "draft"))
          ∧ getattr a "status" ≠ Scalar (PyStr (lit "archived")).
Proof.
  apply (non_staff_sees_only_published plain by_alice store).
  - reflexivity.
  - exact plain_pages_select.
Defined.

(** Alice has a draft and a published article; she is shown the second. *)
Example my_articles_of_alice :
  my_articles plain by_alice store
  = (Ok {| data := Items [guide]; status_code := 200 |}, store)
  ∧ my_articles plain by_editor store
    = (Ok {| data := Items [news]; status_code := 200 |}, store).
Proof. split; vm_compute; reflexivity. Qed.

(** C2, as the specification words it, fails on the sample data: Alice is
    not staff, so her queryset lacks the draft the base queryset has; and
    the article created for her carries her as author, which the base
    [perform_create] does not store. *)
Lemma view_does_not_delegate_entirely :
  ¬ delegates_queryset by_alice store
  ∧ ¬ delegates_creation by_alice incoming store.
Proof.
  split.
  - intros H%(f_equal length). vm_compute in H. discriminate.
  - intros H.
    apply (f_equal (λ x, match x.1 with
                         | Ok r => fields r !! "author"
                         | Raise _ => None
                         end)) in H.
    vm_compute in H. discriminate.
Qed.

Example get_queryset_on_store :
  get_queryset by_alice store = [guide; news]
  ∧ ModelViewSet.get_queryset store = [notes; guide; news]
  ∧ get_queryset by_editor store = [notes; guide; news].
Proof. split_and!; vm_compute; reflexivity. Qed.

Example perform_create_on_store :
  (perform_create by_alice incoming store).1
  = Ok (Row 4 {[ "title" := text "A new article";
                 "author" := user_ref alice ]})
  ∧ (ModelViewSet.perform_create incoming store).1
    = Ok (Row 4 {[ "title" := text "A new article" ]}).
Proof. split; vm_compute; reflexivity. Qed.

End ViewSample.

(** ** The actions of the view *)

Section Actions.

Lemma route_root m :
  route m [] = match m with
               | GET | HEAD => Handler "list"
               | POST => Handler "create"
               | OPTIONS => Metadata
               | _ => MethodNotAllowed
               end.
Proof. by destruct m. Qed.

Lemma route_my_articles m :
  route m ["my_articles"] = match m with
                            | GET | HEAD => Handler "my_articles"
                            | OPTIONS => Metadata
                            | _ => MethodNotAllowed
                            end.
Proof. by destruct m. Qed.

Lemma extra_action_list seg :
  seg ≠ "my_articles" → extra_action false seg = None.
Proof.
  intros Hseg. unfold extra_action, extra_actions. simpl.
  repeat (rewrite bool_decide_eq_false_2 by (intros [??]; congruence)).
  done.
Qed.

Lemma extra_action_detail seg :
  seg ≠ "publish" → extra_action true seg = None.
Proof.
  intros Hseg. unfold extra_action, extra_actions. simpl.
  repeat (rewrite bool_decide_eq_false_2 by (intros [??]; congruence)).
  done.
Qed.

Lemma route_instance m k :
  lookup_value k → k ≠ "my_articles" →
  route m [k] = match m with
                | GET | HEAD => Handler "retrieve"
                | PUT => Handler "update"
                | PATCH => Handler "partial_update"
                | DELETE => Handler "destroy"
                | OPTIONS => Metadata
                | _ => MethodNotAllowed
                end.
Proof.
  intros Hk Hne. unfold route.
  rewrite extra_action_list, bool_decide_eq_true_2 by done. by destruct m.
Qed.

Lemma route_publish m k :
  lookup_value k →
  route m [k; "publish"] = match m with
                           | POST => Handler "publish"
                           | OPTIONS => Metadata
                           | _ => MethodNotAllowed
                           end.
Proof.
  intros Hk. unfold route. rewrite bool_decide_eq_true_2 by done.
  by destruct m.
Qed.

Lemma route_instance_action m k seg :
  seg ≠ "publish" → route m [k; seg] = NotFound.
Proof.
  intros Hseg. unfold route. rewrite extra_action_detail by done.
  by case_bool_decide.
Qed.

(** A first segment that is no lookup value matches no pattern. *)
Lemma route_no_lookup_value m k rest :
  ¬ lookup_value k → route m (k :: rest) = NotFound.
Proof.
  intros Hk. destruct rest as [|seg [|??]]; [| |done].
  - unfold route. rewrite extra_action_list, bool_decide_eq_false_2; [done..|].
    intros ->. apply Hk. by apply (bool_decide_eq_true_1 _).
  - unfold route. by rewrite bool_decide_eq_false_2.
Qed.

(** C4: the view has the six CRUD handlers, each reached at its route:
    [list] and [create] by GET and POST at the root, [retrieve], [update],
    [partial_update] and [destroy] by GET, PUT, PATCH and DELETE at
    [{pk}/]; and two custom actions: [publish], a detail action reached by
    POST at [{pk}/publish/] and by no other request, and [my_articles], a
    list action reached by GET (and by HEAD, as every handler of GET is) at
    [my_articles/] and by no other request. No request reaches any other
    handler, and a key with a dot in it or an empty key is not found. *)
Theorem view_exposes_crud_and_two_actions :
  extra_actions
  = [ Action "publish" true [POST]; Action "my_articles" false [GET] ]
  ∧ route GET [] = Handler "list"
  ∧ route POST [] = Handler "create"
  ∧ (∀ k, lookup_value k → k ≠ "my_articles" →
          route GET [k] = Handler "retrieve"
          ∧ route PUT [k] = Handler "update"
          ∧ route PATCH [k] = Handler "partial_update"
          ∧ route DELETE [k] = Handler "destroy")
  ∧ (∀ m k, lookup_value k →
            route m [k; "publish"] = Handler "publish" ↔ m = POST)
  ∧ (∀ m, route m ["my_articles"] = Handler "my_articles"
          ↔ m = GET ∨ m = HEAD)
  ∧ (∀ m path h,
       route m path = Handler h →
       h ∈ ["list"; "create"; "retrieve"; "update"; "partial_update";
            "destroy"; "publish"; "my_articles"])
  ∧ (∀ m path,
       route m path = Handler "publish" →
       m = POST ∧ ∃ k, lookup_value k ∧ path = [k; "publish"])
  ∧ (∀ m path,
       route m path = Handler "my_articles" →
       (m = GET ∨ m = HEAD) ∧ path = ["my_articles"])
  ∧ (∀ m k rest, ¬ lookup_value k → route m (k :: rest) = NotFound).
Proof.
  split_and!.
  - done.
  - done.
  - done.
  - intros k Hk Hne. by rewrite !route_instance.
  - intros m k Hk. rewrite route_publish by done. by destruct m.
  - intros m. rewrite route_my_articles.
    destruct m; (split; [try done; intros _; auto|by intros [?|?]]).
  - intros m [|s1 [|s2 [|s3 path]]] h; [| | |done].
    + rewrite route_root. destruct m; intros [= <-];
             apply (bool_decide_eq_true_1 _); reflexivity.
    + destruct (decide (s1 = "my_articles")) as [->|Hs].
      * rewrite route_my_articles. destruct m; intros [= <-];
             apply (bool_decide_eq_true_1 _); reflexivity.
      * destruct (decide (lookup_value s1)) as [Hk|Hk].
        -- rewrite route_instance by done.
           destruct m; intros [= <-];
             apply (bool_decide_eq_true_1 _); reflexivity.
        -- by rewrite route_no_lookup_value.
    + destruct (decide (s2 = "publish")) as [->|Hs].
      * destruct (decide (lookup_value s1)) as [Hk|Hk].
        -- rewrite route_publish by done.
           destruct m; intros [= <-];
             apply (bool_decide_eq_true_1 _); reflexivity.
        -- by rewrite route_no_lookup_value.
      * by rewrite route_instance_action.
  - intros m [|s1 [|s2 [|s3 path]]]; [| | |done].
    + rewrite route_root. by destruct m.
    + destruct (decide (s1 = "my_articles")) as [->|Hs].
      * rewrite route_my_articles. by destruct m.
      * destruct (decide (lookup_value s1)) as [Hk|Hk].
        -- rewrite route_instance by done. by destruct m.
        -- by rewrite route_no_lookup_value.
    + destruct (decide (s2 = "publish")) as [->|Hs].
      * destruct (decide (lookup_value s1)) as [Hk|Hk].
        -- rewrite route_publish by done. destruct m; try done.
           intros _. split; [done|]. by exists s1.
        -- by rewrite route_no_lookup_value.
      * by rewrite route_instance_action.
  - intros m [|s1 [|s2 [|s3 path]]]; [| | |done].
    + rewrite route_root. by destruct m.
    + destruct (decide (s1 = "my_articles")) as [->|Hs].
      * rewrite route_my_articles. destruct m; try done; intros _; auto.
      * destruct (decide (lookup_value s1)) as [Hk|Hk].
        -- rewrite route_instance by done. by destruct m.
        -- by rewrite route_no_lookup_value.
    + destruct (decide (s2 = "publish")) as [->|Hs].
      * destruct (decide (lookup_value s1)) as [Hk|Hk].
        -- rewrite route_publish by done. by destruct m.
        -- by rewrite route_no_lookup_value.
      * by rewrite route_instance_action.
  - intros m k rest Hk. by apply route_no_lookup_value.
Qed.

(** A key with a dot in it is no key; an unbound method gets 405. *)
Example route_examples :
  route POST ["1.5"; "publish"] = NotFound
  ∧ route GET ["1.5"] = NotFound
  ∧ route POST ["7"; "publish"] = Handler "publish"
  ∧ route GET ["7"; "publish"] = MethodNotAllowed
  ∧ route PUT ["my_articles"] = MethodNotAllowed
  ∧ route GET ["publish"] = Handler "retrieve"
  ∧ route OPTIONS [] = Metadata.
Proof. split_and!; vm_compute; reflexivity. Qed.

End Actions.

(** ** The filter sets (filters-example.py) *)

Section FilterSets.

(** C5, as the specification words it, fails on the [tag] filter of
    [ArticleFilter]: its lookup expression is [iexact], which is none of
    exact, icontains, gte, lte, and it names no method. *)
Lemma tag_filter_is_not_listed :
  let tag := Decl "tag" CharFilter
               [ ("field_name", Name "tags__name");
                 ("lookup_expr", Name "iexact") ] in
  tag ∈ ArticleFilter
  ∧ lookup_of tag = Lookup "tags__name" "iexact"
  ∧ ¬ listed (lookup_of tag).
Proof.
  split_and!.
  - unfold ArticleFilter. set_solver.
  - reflexivity.
  - apply (bool_decide_eq_false_1 _). vm_compute. reflexivity.
Qed.

(** [exclude_status] is an exact match on status, negated. *)
Example exclude_status_is_exact_negated :
  (λ d, (lookup_of d, excludes d)) <$> declared AdvancedTrialFilter "exclude_status"
  = Some (Lookup "status" "exact", true).
Proof. reflexivity. Qed.

(** The declarations outside the specification's list, by parameter. *)
Example filters_not_listed :
  param <$> filter (λ d, ¬ listed (lookup_of d)) declarations
  = ["tag"; "created_date_range"; "ordering"; "status_in"].
Proof. vm_compute. reflexivity. Qed.

(** C5, as the code has it: every declared filter maps its parameter to a
    lookup expression among exact, icontains, gte, lte, iexact, in and
    range, or to one of the methods [filter_has_participants] and
    [filter_search], or (the ordering filter) to an ordering over
    created_at, updated_at and budget; icontains is used on title,
    author__username and principal_investigator__name, gte and lte on
    created_at and budget, iexact on tags__name, in on status and range
    on created_at; and a [Meta.fields] names exact, in, gte and lte
    only. *)
Theorem every_filter_uses_a_known_lookup :
  Forall (λ d, used (lookup_of d)) declarations
  ∧ fields_with "icontains" declarations
    = ["title"; "author__username"; "principal_investigator__name"]
  ∧ fields_with "gte" declarations = ["created_at"; "budget"]
  ∧ fields_with "lte" declarations = ["created_at"; "budget"]
  ∧ fields_with "iexact" declarations = ["tags__name"]
  ∧ fields_with "in" declarations = ["status"]
  ∧ fields_with "range" declarations = ["created_at"]
  ∧ Forall (λ e, e ∈ ["exact"; "in"; "gte"; "lte"]) meta_lookups.
Proof.
  split_and!; try (vm_compute; reflexivity);
    apply (bool_decide_eq_true_1 _); vm_compute; reflexivity.
Qed.

(** C6: the parameters of the interface contract are declared: [status] as
    a choice filter ([ArticleFilter]) and a multiple-choice filter
    ([TrialFilter]), and among the filter fields of the view; [budget_min]
    as a number filter with gte on budget; [created_after] as a date filter
    with gte on created_at; [ordering] as an ordering filter over
    created_at, updated_at and budget. *)
Theorem contract_parameters_are_declared :
  cls <$> declared ArticleFilter "status" = Some ChoiceFilter
  ∧ cls <$> declared TrialFilter "status" = Some MultipleChoiceFilter
  ∧ "status" ∈ ArticleViewSet.filterset_fields
  ∧ (λ d, (cls d, lookup_of d)) <$> declared TrialFilter "budget_min"
    = Some (NumberFilter, Lookup "budget" "gte")
  ∧ (λ d, (cls d, lookup_of d)) <$> declared ArticleFilter "created_after"
    = Some (DateFilter, Lookup "created_at" "gte")
  ∧ (λ d, (cls d, lookup_of d)) <$> declared TrialFilter "ordering"
    = Some (OrderingFilter,
            Ordering [ ("created_at", "created_at");
                       ("updated_at", "updated_at");
                       ("budget", "budget") ]).
Proof.
  split_and!; try reflexivity. unfold ArticleViewSet.filterset_fields.
  set_solver.
Qed.

End FilterSets.

(** ** Nested create and update (serializer-example.py) *)

Section Nested.

Import ArticleCreateSerializer.

Implicit Types (d : db) (td : gmap string scalar) (a r : row).

Lemma matches_self k kw : matches kw (Row k kw).
Proof. by intros ???. Qed.

Lemma next_pk_fresh rows : next_pk rows ∉ pk <$> rows.
Proof. apply max_list_not_elem_of_gt. unfold next_pk. lia. Qed.

Lemma create_spec m kw d :
  accepted m kw →
  ∃ r, ORM.create m kw d = (Ok r, set_table m (table m d ++ [r]) d)
       ∧ fields r = kw ∧ pk r ∉ pk <$> table m d.
Proof.
  intros Hacc. unfold ORM.create. rewrite bool_decide_eq_true_2 by done.
  eexists. split; [reflexivity|]. split; [done|]. apply next_pk_fresh.
Qed.

(** A keyword that is no field of the model: [TypeError], nothing
    inserted. *)
Lemma create_rejected m kw d :
  ¬ accepted m kw → ORM.create m kw d = (Raise TypeError, d).
Proof. intros Hacc. unfold ORM.create. by rewrite bool_decide_eq_false_2. Qed.

(** [get_or_create] on tags: the row matches and is in the table
    afterwards; it was there before, or it is the one row added. *)
Lemma get_or_create_tag_Ok kw d r b d' :
  get_or_create Tag kw d = (Ok (r, b), d') →
  matches kw r ∧ r ∈ tags d'
  ∧ articles d' = articles d ∧ article_tags d' = article_tags d
  ∧ (tags d' = tags d
     ∨ (tags d' = tags d ++ [r] ∧ fields r = kw
        ∧ filter (matches kw) (tags d) = [])).
Proof.
  unfold get_or_create, qs_get. simpl.
  case_bool_decide as Hacc; [|done].
  destruct (filter (matches kw) (tags d)) as [|r0 [|??]] eqn:Hf;
    [| |done].
  - unfold mbind, M_bind, ORM.create, mret, M_ret. simpl.
    rewrite bool_decide_eq_true_2 by done.
    intros [= <- <- <-]. simpl. split_and!; [apply matches_self| |done..|].
    + apply elem_of_app. right. by left.
    + right. done.
  - intros [= <- <- <-].
    assert (r0 ∈ filter (matches kw) (tags d)) as [??]%list_elem_of_filter
      by (rewrite Hf; by left).
    split_and!; [done..|by left].
Qed.

Lemma attach_Ok a td d d' :
  attach a td d = (Ok (), d') →
  ∃ r, matches (kwargs_of td) r ∧ r ∈ tags d'
       ∧ articles d' = articles d
       ∧ article_tags d' = {[ (pk a, pk r) ]} ∪ article_tags d
       ∧ (tags d' = tags d
          ∨ (tags d' = tags d ++ [r] ∧ fields r = kwargs_of td
             ∧ filter (matches (kwargs_of td)) (tags d) = [])).
Proof.
  unfold attach, mbind, M_bind.
  destruct (get_or_create Tag _ d) as [[[r b]|e] d1] eqn:Hg; [|done].
  apply get_or_create_tag_Ok in Hg as (Hm & Hr & Ha & Hrel & Ht).
  unfold tags_add, write. intros [= <-]. simpl.
  exists r. rewrite Hrel. split_and!; done.
Qed.

(** One turn of the loop that returned: the dict names fields of the tag
    model; it matched exactly one tag, which is attached, or it matched
    none and the tag attached is a new last row made from it. *)
Lemma attach_Ok_cases a td d d' :
  attach a td d = (Ok (), d') →
  accepted Tag (kwargs_of td)
  ∧ ∃ r, articles d' = articles d
         ∧ article_tags d' = {[ (pk a, pk r) ]} ∪ article_tags d
         ∧ ((filter (matches (kwargs_of td)) (tags d) = [r]
             ∧ tags d' = tags d)
            ∨ (filter (matches (kwargs_of td)) (tags d) = []
               ∧ tags d' = tags d ++ [r] ∧ fields r = kwargs_of td)).
Proof.
  unfold attach, mbind, M_bind, get_or_create, qs_get. simpl.
  case_bool_decide as Hacc; [|done]. split; [done|]. revert H.
  destruct (filter _ (tags d)) as [|r0 [|??]] eqn:Hf; [| |done].
  - unfold ORM.create, tags_add, write, mret, M_ret. simpl.
    rewrite bool_decide_eq_true_2 by done. intros [= <-]. simpl.
    exists (Row (next_pk (tags d)) (kwargs_of td)).
    split_and!; [done|reflexivity|]. by right.
  - unfold tags_add, write. simpl. intros [= <-]. simpl.
    exists r0. split_and!; [done|reflexivity|]. by left.
Qed.

Lemma tags_attached_nil k d : tags_attached k [] d d.
Proof.
  split_and!; [done| |done|by left|by intros ? ?%elem_of_nil].
  exists []. split; [by rewrite app_nil_r|by intros ? ?%elem_of_nil].
Qed.

Lemma got_or_created_mono items items' d' t :
  items ⊆ items' → got_or_created items d' t → got_or_created items' d' t.
Proof. intros Hsub (td & row & ? & ?). exists td, row. split; auto. Qed.

(** The loop [for tag_data in tags_data: ... add(tag)]. *)
Lemma for_each_attach_Ok a items d d' :
  for_each items (attach a) d = (Ok (), d') →
  tags_attached (pk a) items d d'.
Proof.
  revert d. induction items as [|td items IH]; intros d; simpl.
  { intros [= <-]. apply tags_attached_nil. }
  unfold mbind, M_bind.
  destruct (attach a td d) as [[[]|e] d1] eqn:Hat; [|done].
  apply attach_Ok in Hat as (r & Hm & Hr & Harts & Hrel & Htags).
  intros (Harts' & (new & Hnew & Hmade) & Hkeep & Hgain & Hall)%IH.
  assert (r ∈ tags d') as Hr'.
  { rewrite Hnew. apply elem_of_app. by left. }
  split_and!.
  - congruence.
  - destruct Htags as [Heq|(Heq & Hf & _)].
    + exists new. split; [congruence|].
      intros r' (td' & ? & ?)%Hmade. exists td'. split; [by right|done].
    + exists (r :: new). split.
      { rewrite Hnew, Heq, <- app_assoc. done. }
      intros r' [->|(td' & ? & ?)%Hmade]%elem_of_cons.
      * exists td. split; [by left|done].
      * exists td'. split; [by right|done].
  - intros p Hp. apply Hkeep. rewrite Hrel. apply elem_of_union. by right.
  - intros p [Hp|[? Hp]]%Hgain.
    + rewrite Hrel in Hp. apply elem_of_union in Hp as [->%elem_of_singleton|?];
        [|by left].
      right. split; [done|]. exists td, r. split_and!; [by left|done..].
    + right. split; [done|].
      eapply got_or_created_mono; [|done]. by apply list_subseteq_cons.
  - intros td' [->|Htd]%elem_of_cons.
    + exists r. split_and!; [done..|]. apply Hkeep. rewrite Hrel.
      apply elem_of_union. left. by apply elem_of_singleton.
    + by apply Hall.
Qed.

Lemma matches_fields kw r : fields r = kw → matches kw r.
Proof. intros <-. by intros ???. Qed.

(** The loop creates a tag only for a dict that no tag matched, and
    attaches the tag that was there otherwise. *)
Lemma for_each_attach_reuses a items d d' :
  for_each items (attach a) d = (Ok (), d') →
  tags_reused (pk a) items d d'.
Proof.
  revert d. induction items as [|td items IH]; intros d; simpl.
  { intros [= <-]. split; [|by intros ?? ?%elem_of_nil].
    exists []. split_and!; [by rewrite app_nil_r|constructor|].
    by intros ? ?%elem_of_nil. }
  unfold mbind, M_bind.
  destruct (attach a td d) as [[[]|e] d1] eqn:Hat; [|done].
  apply attach_Ok_cases in Hat as (_ & r & Harts & Hrel & Hcase).
  intros Hloop. pose proof (for_each_attach_Ok _ _ _ _ Hloop)
    as (_ & _ & Hkeep & _ & _).
  apply IH in Hloop as [(new & Hnew & Hdup & Hmade) Hused].
  assert ((pk a, pk r) ∈ article_tags d') as Hr.
  { apply Hkeep. rewrite Hrel. apply elem_of_union. left.
    by apply elem_of_singleton. }
  destruct Hcase as [[Hf Heq]|(Hf & Heq & Hfields)].
  - split.
    + exists new. split_and!; [congruence|done|].
      intros r' (td' & ? & ? & ?)%Hmade. exists td'.
      split_and!; [by right|done|congruence].
    + intros td' row [->|Htd']%elem_of_cons Hrow Hm.
      * assert (row ∈ filter (matches (kwargs_of td)) (tags d)) as Hin
          by (by apply list_elem_of_filter).
        rewrite Hf in Hin. by apply list_elem_of_singleton in Hin as ->.
      * apply (Hused td' row); [done| |done]. by rewrite Heq.
  - split.
    + exists (r :: new). split_and!.
      * rewrite Hnew, Heq, <- app_assoc. done.
      * rewrite fmap_cons. apply NoDup_cons. split; [|done].
        intros (r' & Hsame & (td' & _ & Hr' & Hnone)%Hmade)%list_elem_of_fmap.
        assert (r ∈ filter (matches (kwargs_of td')) (tags d1)) as Hin.
        { apply list_elem_of_filter. split.
          - apply matches_fields. congruence.
          - rewrite Heq. apply elem_of_app. right. by left. }
        rewrite Hnone in Hin. by apply elem_of_nil in Hin.
      * intros r' [->|(td' & ? & ? & Hnone)%Hmade]%elem_of_cons.
        { exists td. split_and!; [by left|done..]. }
        exists td'. split_and!; [by right|done|].
        rewrite Heq, filter_app in Hnone. by apply app_eq_nil in Hnone as [? _].
    + intros td' row [->|Htd']%elem_of_cons Hrow Hm.
      * assert (row ∈ filter (matches (kwargs_of td)) (tags d)) as Hin
          by (by apply list_elem_of_filter).
        rewrite Hf in Hin. by apply elem_of_nil in Hin.
      * apply (Hused td' row); [done| |done].
        rewrite Heq. apply elem_of_app. by left.
Qed.

(** The loop over [validated_data.items()] sets every validated field and
    keeps the other attributes of the instance. *)
Lemma setattr_items instance (validated_data : gmap string value) :
  map_fold (λ attr value instance, setattr instance attr value)
    instance validated_data
  = Row (pk instance) (validated_data ∪ fields instance).
Proof.
  apply (map_fold_weak_ind
           (λ r m, r = Row (pk instance) (m ∪ fields instance))).
  - rewrite (left_id_L ∅ (∪)). by destruct instance.
  - intros i x m r _ ->. unfold setattr. simpl. by rewrite insert_union_l.
Qed.

(** A full [save] always succeeds and stores the instance. *)
Lemma save_all r d :
  ∃ d', ORM.save r None d = (Ok (), d')
        ∧ stored r (articles d) (articles d')
        ∧ tags d' = tags d ∧ article_tags d' = article_tags d.
Proof.
  unfold ORM.save. case_bool_decide as Hin; eexists; (split; [done|]);
    simpl; (split; [|done]).
  - left. split; [done|]. apply list_fmap_ext. intros _ x _. simpl.
    case_bool_decide as Hpk; [|done]. rewrite Hpk. by destruct r.
  - right. done.
Qed.

Lemma create_Ok validated_data items d a d' :
  tags_given validated_data items
  ∨ (validated_data !! "tags" = None ∧ items = []) →
  create validated_data d = (Ok a, d') →
  fields a = delete "tags" validated_data
  ∧ (pk a ∉ pk <$> articles d)
  ∧ articles d' = articles d ++ [a]
  ∧ tags_attached (pk a) items
      (Db (articles d ++ [a]) (tags d) (article_tags d)) d'
  ∧ tags_reused (pk a) items
      (Db (articles d ++ [a]) (tags d) (article_tags d)) d'.
Proof.
  intros Hgiven. unfold create, pop, mbind, M_bind.
  destruct (decide (accepted Article (delete "tags" validated_data)))
    as [Hacc|Hacc]; [|by rewrite create_rejected].
  destruct (create_spec Article (delete "tags" validated_data) d Hacc)
    as (r & -> & Hf & Hfresh). simpl in *.
  assert (iter (default (PyList []) (validated_data !! "tags"))
          = mret items) as ->.
  { destruct Hgiven as [->|[-> ->]]; done. }
  unfold mret at 1, M_ret at 1.
  destruct (for_each items (attach r) _) as [[[]|e] d2] eqn:Hloop; [|done].
  intros [= <- <-]. pose proof (for_each_attach_reuses _ _ _ _ Hloop).
  apply for_each_attach_Ok in Hloop.
  split_and!; [done..| |done|done]. by destruct Hloop as [-> _].
Qed.

Lemma update_statement instance validated_data d :
  let r := Row (pk instance)
               (delete "tags" validated_data ∪ fields instance) in
  ∃ d1, stored r (articles d) (articles d1) ∧ tags d1 = tags d
        ∧ article_tags d1 = article_tags d
        ∧ update instance validated_data d
          = ((_ ← (if bool_decide (default (Scalar PyNone)
                                     (validated_data !! "tags")
                                   ≠ Scalar PyNone) then
                     _ ← tags_clear r;
                     items ← iter (default (Scalar PyNone)
                                     (validated_data !! "tags"));
                     for_each items (attach r)
                   else mret ());
              mret r) d1).
Proof.
  intros r. destruct (save_all r d) as (d1 & Hsave & ? & ? & ?).
  exists d1. split_and!; [done..|].
  unfold update, pop. rewrite setattr_items. fold r.
  unfold mbind at 1, M_bind at 1. by rewrite Hsave.
Qed.

Lemma update_without_tags instance validated_data d :
  validated_data !! "tags" = None →
  ∃ d', update instance validated_data d
        = (Ok (Row (pk instance) (validated_data ∪ fields instance)), d')
        ∧ stored (Row (pk instance) (validated_data ∪ fields instance))
            (articles d) (articles d')
        ∧ tags d' = tags d ∧ article_tags d' = article_tags d.
Proof.
  intros Hnone.
  destruct (update_statement instance validated_data d)
    as (d1 & Hst & ? & ? & ->).
  rewrite Hnone, delete_id in * by done. simpl.
  exists d1. done.
Qed.

Lemma update_with_tags instance validated_data items d r d' :
  tags_given validated_data items →
  update instance validated_data d = (Ok r, d') →
  r = Row (pk instance) (delete "tags" validated_data ∪ fields instance)
  ∧ ∃ d1, stored r (articles d) (articles d1) ∧ tags d1 = tags d
          ∧ article_tags d1
            = filter (λ p, p.1 ≠ pk instance) (article_tags d)
          ∧ tags_attached (pk instance) items d1 d'
          ∧ tags_reused (pk instance) items d1 d'.
Proof.
  intros Hgiven.
  destruct (update_statement instance validated_data d)
    as (d1 & Hst & Ht & Hrel & ->).
  rewrite Hgiven. simpl.
  unfold mbind, M_bind, tags_clear, write, mret, M_ret. simpl.
  destruct (for_each items _ _) as [[[]|e] d2] eqn:Hloop; [|done].
  intros [= <- <-]. split; [done|].
  pose proof (for_each_attach_reuses _ _ _ _ Hloop) as Hre.
  apply for_each_attach_Ok in Hloop. simpl in Hloop, Hre.
  eexists (Db (articles d1) (tags d1) _). simpl.
  split_and!; [done..| |exact Hloop|exact Hre]. by rewrite Hrel.
Qed.

(** *** When the loop runs to its end *)

Lemma matches_same_keys td td' k :
  dom td' = dom td → matches (kwargs_of td') (Row k (kwargs_of td)) → td' = td.
Proof.
  intros Hdom Hm. apply map_eq. intros i.
  destruct (td' !! i) as [s|] eqn:Hi.
  - specialize (Hm i (Scalar s)). unfold kwargs_of in Hm. simpl in Hm.
    rewrite !lookup_fmap, Hi in Hm. specialize (Hm eq_refl).
    destruct (td !! i); by simplify_eq/=.
  - apply not_elem_of_dom in Hi. rewrite Hdom in Hi.
    by apply not_elem_of_dom in Hi.
Qed.

Lemma attach_succeeds a td d :
  accepted Tag (kwargs_of td) →
  length (filter (matches (kwargs_of td)) (tags d)) ≤ 1 →
  ∃ d', attach a td d = (Ok (), d')
        ∧ (tags d' = tags d
           ∨ ∃ r, tags d' = tags d ++ [r] ∧ fields r = kwargs_of td
                  ∧ filter (matches (kwargs_of td)) (tags d) = []).
Proof.
  intros Hacc Hone.
  unfold attach, mbind, M_bind, get_or_create, qs_get, ORM.create. simpl.
  rewrite !bool_decide_eq_true_2 by done.
  destruct (filter _ (tags d)) as [|r0 [|??]] eqn:Hf; [| |simpl in Hone; lia].
  - eexists. split; [reflexivity|]. right. eexists. simpl. done.
  - eexists. split; [reflexivity|]. by left.
Qed.

Lemma unambiguous_tail td items rows :
  unambiguous (td :: items) rows → unambiguous items rows.
Proof.
  intros [Hone Hkeys]. split.
  - intros td' ?. apply Hone. by right.
  - intros td1 td2 ??. apply Hkeys; by right.
Qed.

Lemma unambiguous_created td items rows r :
  unambiguous (td :: items) rows →
  fields r = kwargs_of td → filter (matches (kwargs_of td)) rows = [] →
  unambiguous items (rows ++ [r]).
Proof.
  intros [Hone Hkeys] Hr Hnone. split.
  - intros td' Htd'. rewrite filter_app, length_app.
    destruct (decide (matches (kwargs_of td') r)) as [Hm|Hm].
    + assert (td' = td) as ->.
      { apply (matches_same_keys _ _ (pk r)).
        - apply Hkeys; [by right|by left].
        - rewrite <- Hr. by destruct r. }
      rewrite Hnone, filter_cons_True by done. simpl. lia.
    + rewrite filter_cons_False by done. simpl.
      specialize (Hone td' ltac:(by right)). lia.
  - intros td1 td2 ??. apply Hkeys; by right.
Qed.

Lemma for_each_attach_succeeds a items d :
  tag_fields_known items → unambiguous items (tags d) →
  ∃ d', for_each items (attach a) d = (Ok (), d').
Proof.
  revert d. induction items as [|td items IH]; intros d Hknown Hun; simpl.
  { by eexists. }
  destruct (attach_succeeds a td d) as (d1 & Hat & Htags).
  { apply Hknown. by left. }
  { apply Hun. by left. }
  unfold mbind, M_bind. rewrite Hat. apply IH.
  { intros td' ?. apply Hknown. by right. }
  destruct Htags as [->|(r & -> & ? & ?)].
  - by apply unambiguous_tail with td.
  - by apply unambiguous_created with td.
Qed.

Lemma create_succeeds validated_data items d :
  tags_given validated_data items
  ∨ (validated_data !! "tags" = None ∧ items = []) →
  accepted Article (delete "tags" validated_data) →
  tag_fields_known items → unambiguous items (tags d) →
  ∃ a d', create validated_data d = (Ok a, d').
Proof.
  intros Hgiven Hacc Hknown Hun. unfold create, pop, mbind, M_bind.
  destruct (create_spec Article (delete "tags" validated_data) d Hacc)
    as (r & -> & _).
  assert (iter (default (PyList []) (validated_data !! "tags"))
          = mret items) as ->.
  { destruct Hgiven as [->|[-> ->]]; done. }
  unfold mret at 1, M_ret at 1.
  destruct (for_each_attach_succeeds r items
              (Db (articles d ++ [r]) (tags d) (article_tags d)))
    as (d' & Hloop); [done..|].
  simpl in Hloop |- *. rewrite Hloop. by eexists _, _.
Qed.

Lemma update_succeeds instance validated_data items d :
  tags_given validated_data items →
  tag_fields_known items → unambiguous items (tags d) →
  ∃ r d', update instance validated_data d = (Ok r, d').
Proof.
  intros Hgiven Hknown Hun.
  destruct (update_statement instance validated_data d)
    as (d1 & _ & Ht & _ & ->).
  rewrite Hgiven. simpl.
  unfold mbind, M_bind, tags_clear, write, mret, M_ret. simpl.
  match goal with
  | |- context [for_each items ?body ?d2] =>
      destruct (for_each_attach_succeeds
                  (Row (pk instance)
                     (delete "tags" validated_data ∪ fields instance))
                  items d2) as (d' & ->)
  end; [done|simpl; by rewrite Ht|].
  by eexists _, _.
Qed.

(** After an update that was given tags, the instance has no tag but those
    got or created for the dicts given; no other article gained or lost
    one. *)
Lemma update_replaces_tags k items (d d1 d' : db) :
  article_tags d1 = filter (λ p, p.1 ≠ k) (article_tags d) →
  tags_attached k items d1 d' →
  (∀ t, (k, t) ∈ article_tags d' → got_or_created items d' t)
  ∧ ∀ p, p.1 ≠ k → p ∈ article_tags d' ↔ p ∈ article_tags d.
Proof.
  intros Hclear (_ & _ & Hkeep & Hgain & _). split.
  - intros t [Hin|[_ ?]]%Hgain; [|done].
    rewrite Hclear in Hin. by apply elem_of_filter in Hin as [? _].
  - intros p Hp. split.
    + intros [Hin|[? _]]%Hgain; [|done].
      rewrite Hclear in Hin. by apply elem_of_filter in Hin as [_ ?].
    + intros Hin. apply Hkeep. rewrite Hclear. by apply elem_of_filter.
Qed.

(** A created article has the tags got or created for the dicts given and
    no other, when the relation named only articles of the table. *)
Lemma create_attaches_only k items rows d d' :
  relation_sound d → k ∉ pk <$> articles d →
  tags_attached k items (Db rows (tags d) (article_tags d)) d' →
  (∀ t, (k, t) ∈ article_tags d' → got_or_created items d' t)
  ∧ ∀ p, p.1 ≠ k → p ∈ article_tags d' ↔ p ∈ article_tags d.
Proof.
  intros Hsound Hfresh (_ & _ & Hkeep & Hgain & _). simpl in *. split.
  - intros t [Hin|[_ ?]]%Hgain; [|done]. by apply Hsound in Hin.
  - intros p Hp. split; [|by apply Hkeep].
    by intros [Hin|[? _]]%Hgain.
Qed.

(** C7: for a validated input whose "tags", when it has the key, is a
    list of tag dicts (no key: no dicts), [create] makes a new article
    from the fields other than "tags", then gets or creates a tag for every
    dict and attaches it to the article; [update] sets the fields other
    than "tags" on the instance and saves it, and, given the key, replaces
    the tags of the instance by those got or created for the dicts (not
    given it, leaves the tags alone). A tag is
    created only for a dict that no tag matched, once for each such dict,
    and a tag that was there and that a dict matches is the one attached.
    Both run to their end when every key names a field of its model and
    no dict matches two tags. *)
Theorem nested_tags_create_and_update validated_data items d :
  tags_given validated_data items
  ∨ (validated_data !! "tags" = None ∧ items = []) →
  (∀ a d',
     create validated_data d = (Ok a, d') →
     fields a = delete "tags" validated_data
     ∧ (pk a ∉ pk <$> articles d)
     ∧ articles d' = articles d ++ [a]
     ∧ tags_attached (pk a) items
         (Db (articles d ++ [a]) (tags d) (article_tags d)) d'
     ∧ tags_reused (pk a) items
         (Db (articles d ++ [a]) (tags d) (article_tags d)) d'
     ∧ (relation_sound d →
        ∀ t, (pk a, t) ∈ article_tags d' → got_or_created items d' t))
  ∧ (tags_given validated_data items →
     ∀ instance r d',
       update instance validated_data d = (Ok r, d') →
       r = Row (pk instance) (delete "tags" validated_data ∪ fields instance)
       ∧ (∀ t, (pk instance, t) ∈ article_tags d' → got_or_created items d' t)
       ∧ (∀ p, p.1 ≠ pk instance → p ∈ article_tags d' ↔ p ∈ article_tags d)
       ∧ ∃ d1, stored r (articles d) (articles d1) ∧ tags d1 = tags d
               ∧ article_tags d1
                 = filter (λ p, p.1 ≠ pk instance) (article_tags d)
               ∧ tags_attached (pk instance) items d1 d'
               ∧ tags_reused (pk instance) items d1 d')
  ∧ (validated_data !! "tags" = None →
     ∀ instance r d',
       update instance validated_data d = (Ok r, d') →
       r = Row (pk instance) (validated_data ∪ fields instance)
       ∧ stored r (articles d) (articles d')
       ∧ tags d' = tags d ∧ article_tags d' = article_tags d)
  ∧ (tag_fields_known items → unambiguous items (tags d) →
     (accepted Article (delete "tags" validated_data) →
      ∃ a d', create validated_data d = (Ok a, d'))
     ∧ ∀ instance, ∃ r d', update instance validated_data d = (Ok r, d')).
Proof.
  intros Hgiven. split_and!.
  - intros a d' Hcreate.
    eapply create_Ok in Hcreate as (Hf & Hfresh & Harts & Hatt & Hre);
      [|done].
    split_and!; [done..|]. intros Hsound.
    by eapply create_attaches_only.
  - intros Htags instance r d' Hupdate.
    eapply update_with_tags in Hupdate
        as (-> & d1 & Hst & Ht & Hrel & Hatt & Hre); [|done].
    destruct (update_replaces_tags _ _ _ _ _ Hrel Hatt) as [??].
    split_and!; [done..|]. by exists d1.
  - intros Hnone instance r d' Hupdate.
    destruct (update_without_tags instance validated_data d Hnone)
      as (d0 & Heq & Hst & Ht & Hrel).
    rewrite Heq in Hupdate. by injection Hupdate as <- <-.
  - intros Hknown Hun. split; [intros Hacc; by eapply create_succeeds|].
    intros instance. destruct Hgiven as [Htags|[Hnone _]].
    + by eapply update_succeeds.
    + destruct (update_without_tags instance validated_data d Hnone)
        as (d' & -> & _). by eexists _, _.
Qed.

(** C10: for a validated input without the "tags" key, [update] returns
    the instance with every validated field set and its other attributes
    kept, stores it, and leaves the tags and the tags of every article as
    they were. *)
Theorem update_without_tags_keeps_the_tags instance validated_data d :
  validated_data !! "tags" = None →
  ∃ r d',
    update instance validated_data d = (Ok r, d')
    ∧ pk r = pk instance
    ∧ (∀ k v, validated_data !! k = Some v → fields r !! k = Some v)
    ∧ (∀ k, validated_data !! k = None → fields r !! k = fields instance !! k)
    ∧ stored r (articles d) (articles d')
    ∧ tags d' = tags d
    ∧ article_tags d' = article_tags d
    ∧ ∀ k, tags_of d' k = tags_of d k.
Proof.
  intros Hnone.
  destruct (update_without_tags instance validated_data d Hnone)
    as (d' & Hupdate & Hst & Ht & Hrel).
  eexists _, d'. split_and!; [done|done| | |done|done|done|].
  - intros k v Hk. simpl. by apply lookup_union_Some_l.
  - intros k Hk. simpl. by apply lookup_union_r.
  - intros k. unfold tags_of. by rewrite Hrel.
Qed.

End Nested.

(** *** The serializer on the sample data *)

Section NestedSample.

Import ArticleCreateSerializer Sample.

Lemma tag_dicts_unambiguous : unambiguous tag_dicts (tags store).
Proof.
  assert (∀ td, td ∈ tag_dicts → dom td = {[ "name" ]}) as Hkeys.
  { apply (proj1 (Forall_forall _ _)). unfold tag_dicts.
    repeat apply Forall_cons_2; [..|apply Forall_nil_2];
      apply dom_singleton_L. }
  split.
  - apply (proj1 (Forall_forall _ _)). unfold tag_dicts.
    repeat apply Forall_cons_2; [..|apply Forall_nil_2]; vm_compute; lia.
  - intros td td' Htd Htd'. by rewrite !Hkeys.
Qed.

Lemma tag_dicts_known : tag_fields_known tag_dicts.
Proof.
  refine (proj1 (Forall_forall (λ td, accepted Tag (kwargs_of td))
                   tag_dicts) _).
  unfold tag_dicts.
  repeat apply Forall_cons_2; [..|apply Forall_nil_2];
    apply (bool_decide_eq_true_1 _); vm_compute; reflexivity.
Qed.

Lemma nested_tags_create_and_update_witness :
  (∃ a d', create tagged store = (Ok a, d'))
  ∧ ∀ instance, ∃ r d', update instance tagged store = (Ok r, d').
Proof.
  destruct (proj2 (proj2 (proj2 (nested_tags_create_and_update
                                   tagged tag_dicts store (or_introl eq_refl))))
              tag_dicts_known tag_dicts_unambiguous) as [Hcreate Hupdate].
  split; [apply Hcreate|exact Hupdate].
  apply (bool_decide_eq_true_1 _). vm_compute. reflexivity.
Defined.

(** The article is created without the "tags" key; [python] is found,
    [rust] is created with the next key; both are attached. *)
Example create_on_store :
  create tagged store
  = (Ok (Row 4 {[ "title" := text "Ownership" ]}),
     Db [notes; guide; news; Row 4 {[ "title" := text "Ownership" ]}]
        [python; django; Row 3 {[ "name" := text "rust" ]}]
        {[ (2, 1); (4, 1); (4, 3) ]}).
Proof. vm_compute. reflexivity. Qed.

(** The guide had the tag [python]; updated with the same data it has
    [python] and [rust], and the title given. *)
Example update_on_store :
  let guide' := Row 2 {[ "title" := text "Ownership";
                         "status" := text "published";
                         "author" := user_ref alice ]} in
  update guide tagged store
  = (Ok guide',
     Db [notes; guide'; news]
        [python; django; Row 3 {[ "name" := text "rust" ]}]
        {[ (2, 1); (2, 3) ]}).
Proof. vm_compute. reflexivity. Qed.

(** Tags given as an empty list remove the tags of the instance. *)
Example update_with_no_tags_left :
  (update guide {[ "tags" := PyList [] ]} store).2
  = Db [notes; guide; news] [python; django] ∅.
Proof. vm_compute. reflexivity. Qed.

(** Two tags of the same name make [get_or_create] raise; the article is
    created by then. *)
Example create_with_ambiguous_tag :
  let twice := Db [] [python; Row 2 {[ "name" := text "python" ]}] ∅ in
  create tagged twice
  = (Raise MultipleObjectsReturned,
     Db [Row 1 {[ "title" := text "Ownership" ]}] (tags twice) ∅).
Proof. vm_compute. reflexivity. Qed.

Lemma update_without_tags_keeps_the_tags_witness :
  ∃ r d',
    update guide revision store = (Ok r, d')
    ∧ pk r = pk guide
    ∧ (∀ k v, revision !! k = Some v → fields r !! k = Some v)
    ∧ (∀ k, revision !! k = None → fields r !! k = fields guide !! k)
    ∧ stored r (articles store) (articles d')
    ∧ tags d' = tags store
    ∧ article_tags d' = article_tags store
    ∧ ∀ k, tags_of d' k = tags_of store k.
Proof.
  apply (update_without_tags_keeps_the_tags guide revision store).
  reflexivity.
Defined.

Example update_revision_on_store :
  let guide' := Row 2 {[ "title" := text "Style guide, revised";
                         "status" := text "archived";
                         "author" := user_ref alice ]} in
  update guide revision store
  = (Ok guide', Db [notes; guide'; news] [python; django] {[ (2, 1) ]}).
Proof. vm_compute. reflexivity. Qed.

End NestedSample.

(** * Further properties *)

(** ** Who can publish, and how often *)

Section Publishing.

Import ArticleViewSet.

Context {R : Type} (self : generic R).

(** When every article under the key that the requester may see is
    published, [publish] writes nothing and answers, if at all, 400. *)
Lemma publish_of_published request k d res d' :
  backends_select self →
  (∀ a, a ∈ get_queryset request d → pk a = k →
        getattr a "status" = published) →
  publish self request k d = (res, d') →
  d' = d ∧ ∀ resp, res = Ok resp → resp = refusal.
Proof.
  intros Hsel Hpub. unfold publish, mbind, M_bind.
  destruct (ModelViewSet.get_object _ _ _ _ _) as [[article|e] d1] eqn:Hget.
  - apply get_object_Ok in Hget as (-> & Hk & Hin).
    apply Hsel in Hin. rewrite (proj2 (eq_str_published _) (Hpub _ Hin Hk)).
    intros [= <- <-]. split; [done|]. by intros resp [= <-].
  - apply get_object_Raise in Hget as ->. intros [= <- <-]. done.
Qed.

(** X1: a user who is not staff cannot publish anything: whatever the key,
    [publish] leaves the database as it is and answers, if it answers,
    400 with the message (drafts are not in the queryset of such a user,
    so only published articles reach the rule). *)
Theorem publish_needs_staff request k d res d' :
  backends_select self →
  is_staff (user request) = false →
  publish self request k d = (res, d') →
  d' = d
  ∧ ∀ resp, res = Ok resp →
      resp = {| data := Detail {[ "detail" := already_published ]};
                status_code := 400 |}.
Proof.
  intros Hsel Hstaff. apply publish_of_published; [done|].
  intros a Ha _. by apply get_queryset_non_staff in Ha as [_ ?].
Qed.

(** X2: [publish] raises [Http404] and writes nothing when the requester
    can see no article under the key: the key is unknown, or (for a user
    who is not staff) the article is not published. *)
Theorem publish_of_hidden_is_404 request k d :
  backends_select self →
  (∀ a, a ∈ get_queryset request d → pk a ≠ k) →
  publish self request k d = (Raise Http404, d).
Proof.
  intros Hsel Hhidden.
  unfold publish, mbind, M_bind, ModelViewSet.get_object, qs_get.
  rewrite filter_none; [done|].
  intros a Ha%Hsel. by apply Hhidden.
Qed.

(** X3: [publish] cannot be repeated while the status stays. Once it has
    answered 200 for a key, every article under that key has status
    "published"; and in every state in which that holds (the state the
    first call left, and any later one until some write puts another
    status back) a [publish] for that key, by whatever user, leaves the
    database as it is and answers, if it answers, 400 with the message. *)
Theorem publish_is_not_repeatable request k d resp d1 :
  backends_select self →
  publish self request k d = (Ok resp, d1) →
  status_code resp = 200 →
  (∀ a, a ∈ articles d1 → pk a = k →
        getattr a "status" = Scalar (PyStr (lit "published")))
  ∧ ∀ d2,
      (∀ a, a ∈ articles d2 → pk a = k →
            getattr a "status" = Scalar (PyStr (lit "published"))) →
      ∀ request' res d3,
        publish self request' k d2 = (res, d3) →
        d3 = d2
        ∧ ∀ resp', res = Ok resp' →
            resp' = {| data := Detail {[ "detail" :=
                                  [0x6587; 0x7AE0; 0x5DF2; 0x53D1; 0x5E03]%N ]};
                       status_code := 400 |}.
Proof.
  intros Hsel Hfirst H200. split.
  - intros a Ha Hk.
    revert Hfirst. unfold publish, mbind, M_bind.
    destruct (ModelViewSet.get_object _ _ _ _ _) as [[article|e] d0] eqn:Hget;
      [|done].
    apply get_object_Ok in Hget as (-> & Hk' & Hin).
    destruct (eq_str _ _).
    { intros [= <- <-]. simpl in H200. unfold HTTP_400_BAD_REQUEST in H200.
      lia. }
    destruct (save_one_column_Ok (setattr article "status" published)
                "status" d) as (d1' & Hsave & _ & Hst).
    { simpl. apply list_elem_of_fmap. exists article. split; [done|].
      by apply get_queryset_subset with request, Hsel with request. }
    rewrite Hsave. intros [= <- <-].
    rewrite (Hst a Ha) by (simpl; congruence).
    unfold getattr, get. simpl. by rewrite lookup_insert_eq.
  - intros d2 Hpub request' res d3.
    apply publish_of_published; [done|].
    intros a Ha%get_queryset_subset Hk. by apply Hpub.
Qed.

(** X4: [my_articles] answers every user, staff or not, with 200 and
    without writing; it shows only articles of the queryset whose author
    is the requester; and when the paginator gives no page it shows all
    of those, which for a staff user are all the user's articles,
    drafts included. *)
Theorem my_articles_shows_own request d :
  pages_select self →
  ∃ resp shown,
    my_articles self request d = (Ok resp, d)
    ∧ status_code resp = 200
    ∧ shows self ArticleSerializer resp shown
    ∧ (∀ a, a ∈ shown →
         a ∈ get_queryset request d
         ∧ getattr a "author" = user_ref (user request))
    ∧ (paginate_queryset self request
         (qs_filter "author" (user_ref (user request))
            (get_queryset request d)) = None →
       (∀ a, a ∈ get_queryset request d →
             getattr a "author" = user_ref (user request) → a ∈ shown)
       ∧ (is_staff (user request) = true →
          ∀ a, a ∈ articles d →
               getattr a "author" = user_ref (user request) → a ∈ shown)).
Proof.
  intros Hpages.
  set (mine := qs_filter "author" (user_ref (user request))
                 (get_queryset request d)).
  assert (∀ a, a ∈ mine ↔
               a ∈ get_queryset request d
               ∧ getattr a "author" = user_ref (user request)) as Hmine.
  { intros a. unfold mine, qs_filter. rewrite list_elem_of_filter.
    unfold getattr, get, user_ref.
    destruct (fields a !! "author"); simpl; split; intros [??];
      split; congruence. }
  unfold my_articles, mbind, M_bind, read. fold mine.
  destruct (paginate_queryset self request mine) as [page|] eqn:Hpage.
  - eexists _, page. split_and!; [done|done|by left| |done].
    intros a Ha. apply Hmine, (Hpages _ _ _ Hpage), Ha.
  - eexists _, mine. split_and!; [done|done|by right|by intros a ?%Hmine|].
    intros _. split; [by intros a ??; apply Hmine|].
    intros Hstaff a Ha ?. apply Hmine. split; [|done].
    unfold get_queryset. by rewrite Hstaff.
Qed.

End Publishing.

Section PublishingSample.

Import ArticleViewSet Sample.

(** Alice asks for the published guide. *)
Lemma publish_needs_staff_witness :
  store = store
  ∧ ∀ resp, Ok (@refusal row) = Ok resp →
      resp = {| data := Detail {[ "detail" := already_published ]};
                status_code := 400 |}.
Proof.
  apply (publish_needs_staff plain by_alice 2 store).
  - exact plain_backends_select.
  - reflexivity.
  - reflexivity.
Defined.

(** Alice asks for her draft, which she cannot see. *)
Lemma publish_of_hidden_is_404_witness :
  publish plain by_alice 1 store = (Raise Http404, store).
Proof.
  apply (publish_of_hidden_is_404 plain by_alice 1 store).
  - exact plain_backends_select.
  - apply (proj1 (Forall_forall _ _)).
    repeat apply Forall_cons_2; [..|apply Forall_nil_2]; vm_compute; lia.
Defined.

(** The editor publishes the draft; then Alice asks again. *)
Lemma publish_is_not_repeatable_witness :
  (∀ a, a ∈ articles released → pk a = 1 →
        getattr a "status" = Scalar (PyStr (lit "published")))
  ∧ ∀ d2,
      (∀ a, a ∈ articles d2 → pk a = 1 →
            getattr a "status" = Scalar (PyStr (lit "published"))) →
      ∀ request' res d3,
        publish plain request' 1 d2 = (res, d3) →
        d3 = d2
        ∧ ∀ resp', res = Ok resp' →
            resp' = {| data := Detail {[ "detail" :=
                                  [0x6587; 0x7AE0; 0x5DF2; 0x53D1; 0x5E03]%N ]};
                       status_code := 400 |}.
Proof.
  apply (publish_is_not_repeatable plain by_editor 1 store
           {| data := Item (article 1 "Field notes" "published" alice);
              status_code := 200 |} released).
  - exact plain_backends_select.
  - vm_compute. reflexivity.
  - reflexivity.
Defined.

(** Once an update has put the draft status back, the article can be
    published again. *)
Example publish_after_status_written_back :
  let draft : gmap string value := {[ "status" := text "draft" ]} in
  (publish plain by_editor 1 store).2 = released
  ∧ (publish plain by_alice 1 released).1 = Ok refusal
  ∧ (ArticleCreateSerializer.update
       (article 1 "Field notes" "published" alice) draft released).2 = store
  ∧ (publish plain by_editor 1 store).1
    = Ok {| data := Item (article 1 "Field notes" "published" alice);
            status_code := 200 |}.
Proof. split_and!; vm_compute; reflexivity. Qed.

Lemma my_articles_shows_own_witness :
  ∃ resp shown,
    my_articles plain by_editor store = (Ok resp, store)
    ∧ status_code resp = 200
    ∧ shows plain ArticleSerializer resp shown
    ∧ (∀ a, a ∈ shown →
         a ∈ get_queryset by_editor store
         ∧ getattr a "author" = user_ref (user by_editor))
    ∧ (paginate_queryset plain by_editor
         (qs_filter "author" (user_ref (user by_editor))
            (get_queryset by_editor store)) = None →
       (∀ a, a ∈ get_queryset by_editor store →
             getattr a "author" = user_ref (user by_editor) → a ∈ shown)
       ∧ (is_staff (user by_editor) = true →
          ∀ a, a ∈ articles store →
               getattr a "author" = user_ref (user by_editor) → a ∈ shown)).
Proof.
  apply (my_articles_shows_own plain by_editor store).
  exact plain_pages_select.
Defined.

End PublishingSample.

(** ** What create and update keep, and what they leave behind *)

Section Runs.

Import ArticleCreateSerializer.

Implicit Types (d : db) (td : gmap string scalar) (a r : row).

(** One turn of the loop, whatever its outcome: the articles stay; at most
    one tag row is added, made from the dict, under a new key; at most one
    pair is added, of the article with a tag of the table; and an
    exception of the lookup ([FieldError] for a key that is no field of
    the tag, [MultipleObjectsReturned] for a dict that two tags match) is
    raised before any write. *)
Lemma attach_any a td d res d' :
  attach a td d = (res, d') →
  articles d' = articles d
  ∧ (tags d' = tags d
     ∨ tags d' = tags d ++ [Row (next_pk (tags d)) (kwargs_of td)])
  ∧ (article_tags d' = article_tags d
     ∨ ∃ r, r ∈ tags d'
            ∧ article_tags d' = {[ (pk a, pk r) ]} ∪ article_tags d)
  ∧ (∀ e, res = Raise e →
          ((e = FieldError ∧ ¬ accepted Tag (kwargs_of td))
           ∨ (e = MultipleObjectsReturned ∧ accepted Tag (kwargs_of td)))
          ∧ d' = d).
Proof.
  unfold attach, mbind, M_bind, get_or_create, qs_get. simpl.
  case_bool_decide as Hacc.
  2:{ intros [= <- <-]. split_and!; [done|by left|by left|].
      intros e [= <-]. split; [by left|done]. }
  destruct (filter _ (tags d)) as [|r0 [|??]] eqn:Hf.
  - unfold ORM.create, tags_add, write. simpl.
    rewrite bool_decide_eq_true_2 by done. simpl. intros [= <- <-]. simpl.
    split_and!; [done|by right| |done].
    right. exists (Row (next_pk (tags d)) (kwargs_of td)).
    split; [|reflexivity]. apply elem_of_app. right. by left.
  - unfold tags_add, write. simpl. intros [= <- <-]. simpl.
    split_and!; [done|by left| |done].
    right. exists r0. split; [|reflexivity].
    assert (r0 ∈ filter (matches (kwargs_of td)) (tags d))
      as [_ ?]%list_elem_of_filter by (rewrite Hf; by left).
    done.
  - intros [= <- <-]. split_and!; [done|by left|by left|].
    intros e [= <-]. split; [by right|done].
Qed.

(** What every turn keeps, the loop keeps. *)
Lemma for_each_attach_keeps (I : db → Prop) a items :
  (∀ td d res d', td ∈ items → I d → attach a td d = (res, d') → I d') →
  ∀ d res d', I d → for_each items (attach a) d = (res, d') → I d'.
Proof.
  induction items as [|td items IH]; intros Hturn d res d' HI; simpl.
  { by intros [= <- <-]. }
  unfold mbind, M_bind.
  destruct (attach a td d) as [[[]|e] d1] eqn:Hat.
  - apply IH.
    + intros td' ???? ?. eapply Hturn; [by right|done..].
    + eapply Hturn; [by left|done..].
  - intros [= <- <-]. eapply Hturn; [by left|done..].
Qed.

(** A loop that raised did so at one of its dicts: for a key that is no
    field of the tag, or for two tags that match it. *)
Lemma for_each_attach_Raise a items d e d' :
  for_each items (attach a) d = (Raise e, d') →
  ∃ td, td ∈ items
        ∧ ((e = FieldError ∧ ¬ accepted Tag (kwargs_of td))
           ∨ (e = MultipleObjectsReturned ∧ accepted Tag (kwargs_of td))).
Proof.
  revert d. induction items as [|td items IH]; intros d; simpl; [done|].
  unfold mbind, M_bind.
  destruct (attach a td d) as [[[]|e0] d1] eqn:Hat.
  - intros (td' & ? & ?)%IH. exists td'. split; [by right|done].
  - intros [= <- <-]. apply attach_any in Hat as (_ & _ & _ & Hraise).
    destruct (Hraise _ eq_refl) as [? _]. exists td. split; [by left|done].
Qed.

(** A loop that ran to its end met only keys that name fields of the
    tag. *)
Lemma for_each_attach_known a items d d' :
  for_each items (attach a) d = (Ok (), d') → tag_fields_known items.
Proof.
  revert d. induction items as [|td items IH]; intros d; simpl.
  { by intros _ ? ?%elem_of_nil. }
  unfold mbind, M_bind.
  destruct (attach a td d) as [[[]|e] d1] eqn:Hat; [|done].
  apply attach_Ok_cases in Hat as [Hacc _].
  intros Hknown%IH td' [->|?]%elem_of_cons; [done|by apply Hknown].
Qed.

Lemma iter_cases v d :
  (∃ items, iter v d = (Ok items, d)
            ∧ (v = PyList items ∨ (v = Scalar (PyStr []) ∧ items = [])))
  ∨ (iter v d = (Raise TypeError, d) ∧ ∃ s, v = Scalar s ∧ s ≠ PyStr []).
Proof.
  destruct v as [[| | |[|??]]|items]; simpl;
    try (right; split; [done|]; eexists; split; [done|]; done).
  - left. exists []. split; [done|]. by right.
  - left. exists items. split; [done|]. by left.
Qed.

(** The run of [create]: a key other than "tags" that is no field of the
    article makes the constructor raise; otherwise the article is inserted,
    and then the value under "tags" is malformed and [TypeError] is raised,
    or the loop runs. *)
Lemma create_run validated_data d res d' :
  create validated_data d = (res, d') →
  let a := Row (next_pk (articles d)) (delete "tags" validated_data) in
  let d1 := Db (articles d ++ [a]) (tags d) (article_tags d) in
  (¬ accepted Article (delete "tags" validated_data)
   ∧ res = Raise TypeError ∧ d' = d)
  ∨ (accepted Article (delete "tags" validated_data)
     ∧ malformed_tags validated_data ∧ res = Raise TypeError ∧ d' = d1)
  ∨ (accepted Article (delete "tags" validated_data)
     ∧ ¬ malformed_tags validated_data
     ∧ ∃ items res0,
         for_each items (attach a) d1 = (res0, d')
         ∧ res = match res0 with Ok _ => Ok a | Raise e => Raise e end
         ∧ (validated_data !! "tags" = Some (PyList items)
            ∨ (items = []
               ∧ (validated_data !! "tags" = None
                  ∨ validated_data !! "tags" = Some (Scalar (PyStr [])))))).
Proof.
  unfold create, pop, mbind, M_bind, ORM.create. simpl.
  case_bool_decide as Hacc; [|intros [= <- <-]; by left].
  simpl.
  destruct (iter_cases (default (PyList []) (validated_data !! "tags"))
              (Db (articles d ++
                     [Row (next_pk (articles d)) (delete "tags" validated_data)])
                  (tags d) (article_tags d)))
    as [(items & -> & Hv)|(-> & s & Hv & Hs)].
  - intros Hrun. right. right. split; [done|]. split.
    { intros (s & Hs & Hne). rewrite Hs in Hv. simpl in Hv.
      destruct Hv as [Hv|[Hv _]]; [discriminate|].
      apply Hne. congruence. }
    assert (validated_data !! "tags" = Some (PyList items)
            ∨ (items = []
               ∧ (validated_data !! "tags" = None
                  ∨ validated_data !! "tags" = Some (Scalar (PyStr [])))))
      as Hitems.
    { destruct (validated_data !! "tags") as [v|] eqn:Htags; simpl in Hv.
      - destruct Hv as [->|[-> ->]]; [by left|]. right. split; [done|].
        by right.
      - destruct Hv as [[= <-]|[[=] _]]. right. split; [done|]. by left. }
    exists items. revert Hrun. unfold mret, M_ret.
    destruct (for_each items _ _) as [[[]|e] d2]; intros [= <- <-];
      eexists; split_and!; done.
  - intros [= <- <-]. right. left. split; [done|]. split; [|done].
    exists s. split; [|done].
    destruct (validated_data !! "tags"); by simplify_eq/=.
Qed.

(** The run of [update]: the instance is saved with the fields set; then
    the tags are left alone (no "tags" key, or [None] under it), or they
    are cleared and the value is malformed, or they are cleared and the
    loop runs. *)
Lemma update_run instance validated_data d res d' :
  update instance validated_data d = (res, d') →
  let r := Row (pk instance)
               (delete "tags" validated_data ∪ fields instance) in
  ∃ d1,
    stored r (articles d) (articles d1) ∧ tags d1 = tags d
    ∧ article_tags d1 = article_tags d
    ∧ ((default (Scalar PyNone) (validated_data !! "tags") = Scalar PyNone
        ∧ res = Ok r ∧ d' = d1)
       ∨ (default (Scalar PyNone) (validated_data !! "tags") ≠ Scalar PyNone
          ∧ let d2 := Db (articles d1) (tags d1)
                        (filter (λ p, p.1 ≠ pk instance) (article_tags d1)) in
            (malformed_tags validated_data ∧ res = Raise TypeError ∧ d' = d2)
            ∨ (∃ items res0,
                 for_each items (attach r) d2 = (res0, d')
                 ∧ res = match res0 with Ok _ => Ok r | Raise e => Raise e end
                 ∧ (validated_data !! "tags" = Some (PyList items)
                    ∨ (items = []
                       ∧ validated_data !! "tags"
                         = Some (Scalar (PyStr []))))))).
Proof.
  intros Hrun r.
  destruct (update_statement instance validated_data d)
    as (d1 & Hst & Ht & Hrel & Heq).
  rewrite Heq in Hrun. clear Heq. fold r in Hst, Hrun.
  exists d1. split_and!; [done..|].
  revert Hrun. case_bool_decide as Hnone.
  - intros Hrun. right. split; [done|].
    revert Hrun. unfold mbind, M_bind, tags_clear, write, mret, M_ret. simpl.
    match goal with
    | |- context [iter ?v ?d2] =>
        destruct (iter_cases v d2) as [(items & -> & Hv)|(-> & s & Hv & Hs)]
    end.
    + intros Hrun. right. exists items. revert Hrun.
      assert (validated_data !! "tags" = Some (PyList items)
              ∨ (items = []
                 ∧ validated_data !! "tags" = Some (Scalar (PyStr []))))
        as Hitems.
      { destruct (validated_data !! "tags") as [v|] eqn:Htags; simpl in Hv.
        - destruct Hv as [->|[-> ->]]; [by left|]. by right.
        - by destruct Hv as [[=]|[[=] _]]. }
      destruct (for_each items _ _) as [[[]|e] d3]; intros [= <- <-];
        eexists; split_and!; done.
    + intros [= <- <-]. left. split; [|done]. exists s. split; [|done].
      destruct (validated_data !! "tags"); by simplify_eq/=.
  - unfold mbind, M_bind, mret, M_ret. intros [= <- <-]. left.
    done.
Qed.

Lemma stored_keys r before after :
  stored r before after →
  pk r ∈ pk <$> after
  ∧ (pk <$> after = pk <$> before
     ∨ (pk <$> after = (pk <$> before) ++ [pk r] ∧ (pk r ∉ pk <$> before))).
Proof.
  intros [[Hin ->]|[Hnew ->]].
  - assert (pk <$> ((λ x, if bool_decide (pk x = pk r) then r else x)
                      <$> before) = pk <$> before) as Hsame.
    { rewrite <- list_fmap_compose. apply list_fmap_ext. intros _ x _. simpl.
      by case_bool_decide. }
    rewrite Hsame. split; [done|by left].
  - rewrite fmap_app. simpl. split; [|by right].
    apply elem_of_app. right. by left.
Qed.

Lemma NoDup_snoc_fresh (ks : list nat) k : NoDup ks → k ∉ ks → NoDup (ks ++ [k]).
Proof.
  intros Hks Hk. apply NoDup_app. split_and!; [done| |apply NoDup_singleton].
  intros x Hx ->%list_elem_of_singleton. done.
Qed.

Lemma attach_keeps_keys a td d res d' :
  keys_unique d → attach a td d = (res, d') → keys_unique d'.
Proof.
  intros [Ha Ht] (Harts & Htags & _)%attach_any. split; [by rewrite Harts|].
  destruct Htags as [->| ->]; [done|].
  rewrite fmap_app. apply NoDup_snoc_fresh; [done|apply next_pk_fresh].
Qed.

Lemma attach_keeps_integrity a td d res d' :
  integrity d ∧ pk a ∈ pk <$> articles d →
  attach a td d = (res, d') →
  integrity d' ∧ pk a ∈ pk <$> articles d'.
Proof.
  intros [Hint Ha] (Harts & Htags & Hrel & _)%attach_any.
  rewrite Harts. split; [|done].
  assert (∀ k, k ∈ pk <$> tags d → k ∈ pk <$> tags d') as Hmono.
  { intros k Hk. destruct Htags as [->| ->]; [done|].
    rewrite fmap_app. apply elem_of_app. by left. }
  intros p Hp. rewrite Harts.
  destruct Hrel as [Hrel|(r & Hr & Hrel)]; rewrite Hrel in Hp.
  - destruct (Hint p Hp). auto.
  - apply elem_of_union in Hp as [->%elem_of_singleton|Hp].
    + simpl. split; [done|]. apply list_elem_of_fmap. by exists r.
    + destruct (Hint p Hp). auto.
Qed.

(** X5: [create] and [update] keep the primary keys unique: whatever they
    are given and whether they return or raise, no two articles and no two
    tags share a key afterwards when none did before. *)
Theorem create_and_update_keep_keys_unique d :
  keys_unique d →
  (∀ validated_data res d',
     create validated_data d = (res, d') → keys_unique d')
  ∧ (∀ instance validated_data res d',
       update instance validated_data d = (res, d') → keys_unique d').
Proof.
  intros [Ha Ht]. split.
  - intros validated_data res d' Hrun. apply create_run in Hrun. simpl in Hrun.
    assert (keys_unique
              (Db (articles d ++
                     [Row (next_pk (articles d)) (delete "tags" validated_data)])
                  (tags d) (article_tags d))) as Hd1.
    { split; [|done]. simpl. rewrite fmap_app.
      apply NoDup_snoc_fresh; [done|apply next_pk_fresh]. }
    destruct Hrun as [(_ & _ & ->)|[(_ & _ & _ & ->)
                                    |(_ & _ & items & res0 & Hloop & _)]];
      [done|done|].
    revert Hloop. apply for_each_attach_keeps; [|done].
    intros ???? _. apply attach_keeps_keys.
  - intros instance validated_data res d' Hrun.
    apply update_run in Hrun as (d1 & Hst & Htags & _ & Hrest).
    assert (keys_unique d1) as Hd1.
    { split; [|by rewrite Htags].
      apply stored_keys in Hst as [_ [->|[-> ?]]]; [done|].
      by apply NoDup_snoc_fresh. }
    destruct Hrest as [(_ & _ & ->)|(_ & Hrest)]; [done|]. simpl in Hrest.
    destruct Hrest as [(_ & _ & ->)|(items & res0 & Hloop & _)]; [done|].
    revert Hloop. apply for_each_attach_keeps; [|done].
    intros ???? _. apply attach_keeps_keys.
Qed.

(** X6: [create] and [update] keep the tag relation sound: whatever they
    are given and whether they return or raise, every pair of the relation
    names an article and a tag of the tables afterwards when every pair
    did before. *)
Theorem create_and_update_keep_integrity d :
  integrity d →
  (∀ validated_data res d',
     create validated_data d = (res, d') → integrity d')
  ∧ (∀ instance validated_data res d',
       update instance validated_data d = (res, d') → integrity d').
Proof.
  intros Hint. split.
  - intros validated_data res d' Hrun. apply create_run in Hrun. simpl in Hrun.
    set (a := Row (next_pk (articles d)) (delete "tags" validated_data)) in *.
    assert (integrity (Db (articles d ++ [a]) (tags d) (article_tags d))
            ∧ pk a ∈ pk <$> articles d ++ [a]) as Hd1.
    { split.
      - intros p [??]%Hint. simpl. split; [|done].
        rewrite fmap_app. apply elem_of_app. by left.
      - rewrite fmap_app. apply elem_of_app. right. by left. }
    destruct Hrun as [(_ & _ & ->)|[(_ & _ & _ & ->)
                                    |(_ & _ & items & res0 & Hloop & _)]];
      [done|by destruct Hd1|].
    eapply (for_each_attach_keeps
              (λ d, integrity d ∧ pk a ∈ pk <$> articles d)) in Hloop;
      [by destruct Hloop| |done].
    intros ???? _. apply attach_keeps_integrity.
  - intros instance validated_data res d' Hrun.
    apply update_run in Hrun as (d1 & Hst & Htags & Hrel & Hrest).
    set (r := Row (pk instance)
                (delete "tags" validated_data ∪ fields instance)) in *.
    apply stored_keys in Hst as [Hr Hkeys].
    assert (∀ k, k ∈ pk <$> articles d → k ∈ pk <$> articles d1) as Hmono.
    { intros k Hk. destruct Hkeys as [->|[-> _]]; [done|].
      apply elem_of_app. by left. }
    assert (integrity d1) as Hd1.
    { intros p Hp. rewrite Hrel in Hp. destruct (Hint p Hp).
      rewrite Htags. auto. }
    destruct Hrest as [(_ & _ & ->)|(_ & Hrest)]; [done|]. simpl in Hrest.
    assert (integrity (Db (articles d1) (tags d1)
                         (filter (λ p, p.1 ≠ pk instance) (article_tags d1))))
      as Hd2.
    { intros p [_ Hp]%elem_of_filter. by apply Hd1. }
    destruct Hrest as [(_ & _ & ->)|(items & res0 & Hloop & _)]; [done|].
    eapply (for_each_attach_keeps
              (λ d, integrity d ∧ pk r ∈ pk <$> articles d)) in Hloop;
      [by destruct Hloop| |done].
    intros ???? _. apply attach_keeps_integrity.
Qed.

Lemma unambiguous_grow all td rows r :
  unambiguous all rows → td ∈ all →
  fields r = kwargs_of td → filter (matches (kwargs_of td)) rows = [] →
  unambiguous all (rows ++ [r]).
Proof.
  intros [Hone Hkeys] Htd Hr Hnone. split; [|done].
  intros td' Htd'. rewrite filter_app, length_app.
  destruct (decide (matches (kwargs_of td') r)) as [Hm|Hm].
  - assert (td' = td) as ->.
    { apply (matches_same_keys _ _ (pk r)); [by apply Hkeys|].
      rewrite <- Hr. by destruct r. }
    rewrite Hnone, filter_cons_True by done. simpl. lia.
  - rewrite filter_cons_False by done. simpl.
    specialize (Hone td' Htd'). lia.
Qed.

Lemma attach_keeps_unambiguous all a td d res d' :
  td ∈ all → unambiguous all (tags d) →
  attach a td d = (res, d') → unambiguous all (tags d').
Proof.
  intros Htd Hun Hat. destruct res as [[]|e].
  - apply attach_Ok in Hat as (r & _ & _ & _ & _ & [->|(-> & ? & ?)]);
      [done|]. by apply unambiguous_grow with td.
  - apply attach_any in Hat as (_ & _ & _ & Hraise).
    by destruct (Hraise _ eq_refl) as [_ ->].
Qed.

Lemma unique_match (P : row → Prop) `{∀ r, Decision (P r)} rows r :
  length (filter P rows) ≤ 1 → r ∈ rows → P r → filter P rows = [r].
Proof.
  intros Hone Hr HP.
  assert (r ∈ filter P rows) as Hin by by apply list_elem_of_filter.
  destruct (filter P rows) as [|r0 [|??]]; simpl in Hone; [|..|lia].
  - by apply elem_of_nil in Hin.
  - by apply list_elem_of_singleton in Hin as ->.
Qed.

(** After a loop that ran to its end over unambiguous dicts, every dict
    matches exactly one tag, and that tag is attached. *)
Lemma for_each_attach_one a items d d' :
  unambiguous items (tags d) →
  for_each items (attach a) d = (Ok (), d') →
  unambiguous items (tags d')
  ∧ ∀ td, td ∈ items →
      ∃ r, filter (matches (kwargs_of td)) (tags d') = [r]
           ∧ (pk a, pk r) ∈ article_tags d'.
Proof.
  intros Hun Hloop.
  assert (unambiguous items (tags d')) as Hun'.
  { revert Hloop.
    apply (for_each_attach_keeps (λ d, unambiguous items (tags d)));
      [|done].
    intros td d0 res d0' Htd. by apply attach_keeps_unambiguous. }
  split; [done|]. intros td Htd.
  apply for_each_attach_Ok in Hloop as (_ & _ & _ & _ & Hall).
  destruct (Hall td Htd) as (r & Hr & Hm & Hatt).
  exists r. split; [|done]. apply unique_match; [|done..].
  by apply Hun'.
Qed.

(** X7: when the tag dicts given have the same keys and none matches two
    tags, then after a [create] or an [update] that returned, the same
    holds of the tag table, every dict matches exactly one tag, and that
    tag is attached to the article: no tag is made twice. *)
Theorem each_tag_dict_names_one_tag validated_data items d :
  tags_given validated_data items →
  unambiguous items (tags d) →
  (∀ a d',
     create validated_data d = (Ok a, d') →
     unambiguous items (tags d')
     ∧ ∀ td, td ∈ items →
         ∃ r, filter (matches (kwargs_of td)) (tags d') = [r]
              ∧ (pk a, pk r) ∈ article_tags d')
  ∧ (∀ instance r d',
       update instance validated_data d = (Ok r, d') →
       unambiguous items (tags d')
       ∧ ∀ td, td ∈ items →
           ∃ t, filter (matches (kwargs_of td)) (tags d') = [t]
                ∧ (pk instance, pk t) ∈ article_tags d').
Proof.
  intros Hgiven Hun. split.
  - intros a d' Hrun. apply create_run in Hrun. simpl in Hrun.
    destruct Hrun as [(_ & [=] & _)|[(_ & _ & [=] & _)
                      |(_ & _ & items' & res0 & Hloop & Hres & Hit)]].
    destruct res0 as [[]|e]; [|done]. injection Hres as ->.
    rewrite Hgiven in Hit. destruct Hit as [[= <-]|[_ [[=]|[=]]]].
    by apply for_each_attach_one in Hloop.
  - intros instance r d' Hrun.
    apply update_run in Hrun as (d1 & _ & Ht & _ & Hrest).
    destruct Hrest as [(Hnone & _)|(_ & Hrest)].
    { rewrite Hgiven in Hnone. done. }
    simpl in Hrest.
    destruct Hrest as [(_ & [=] & _)|(items' & res0 & Hloop & Hres & Hit)].
    destruct res0 as [[]|e]; [|done].
    rewrite Hgiven in Hit. destruct Hit as [[= <-]|[_ [=]]].
    apply for_each_attach_one in Hloop; [done|]. simpl. by rewrite Ht.
Qed.

Lemma attach_keeps_articles rows a td d res d' :
  articles d = rows → attach a td d = (res, d') → articles d' = rows.
Proof. intros <- (? & _)%attach_any. done. Qed.

Lemma unknown_keyword_not_accepted m kwargs :
  unknown_keyword m kwargs → ¬ accepted m kwargs.
Proof.
  intros (k & [v Hk]%elem_of_dom & Hno) Hacc. apply Hno.
  do 2 right. exact (Hacc k v Hk).
Qed.

(** X8: [create] is not all or nothing. When it raises because a key
    other than "tags" names neither a field of the article nor its
    primary key, the exception is [TypeError] and nothing was written.
    When the other keys name fields of the article and it raises
    [TypeError], [FieldError] or [MultipleObjectsReturned], the article
    has been inserted all the same, from the fields other than "tags":
    [TypeError] comes from a value under "tags" that is a scalar other
    than the empty string ([None] included), with the tags and their
    relation as before; [FieldError] from a tag dict with a key that is no
    field of the tag. *)
Theorem create_leaves_the_article_on_error validated_data d e d' :
  create validated_data d = (Raise e, d') →
  (unknown_keyword Article (delete "tags" validated_data) →
   e = TypeError ∧ d' = d)
  ∧ (accepted Article (delete "tags" validated_data) →
     (e = TypeError ∨ e = FieldError ∨ e = MultipleObjectsReturned →
      ∃ a, fields a = delete "tags" validated_data
           ∧ (pk a ∉ pk <$> articles d)
           ∧ articles d' = articles d ++ [a])
     ∧ (e = TypeError →
        malformed_tags validated_data
        ∧ tags d' = tags d ∧ article_tags d' = article_tags d)
     ∧ (e = FieldError →
        ∃ items td, tags_given validated_data items ∧ td ∈ items
                    ∧ ¬ accepted Tag (kwargs_of td))).
Proof.
  intros Hrun. apply create_run in Hrun. simpl in Hrun.
  destruct Hrun as [(Hno & [= ->] & ->)
                   |[(Hacc & Hmal & [= ->] & ->)
                    |(Hacc & Hok & items & res0 & Hloop & Hres & Hit)]].
  - split; [done|]. by intros ?%Hno.
  - split; [by intros ?%unknown_keyword_not_accepted|]. intros _.
    split_and!; [|done|done]. intros _.
    exists (Row (next_pk (articles d)) (delete "tags" validated_data)).
    split_and!; [done|apply next_pk_fresh|done].
  - split; [by intros ?%unknown_keyword_not_accepted|]. intros _.
    destruct res0 as [[]|e0]; [done|]. injection Hres as ->.
    pose proof (for_each_attach_Raise _ _ _ _ _ Hloop)
      as (td & Htd & Hwhy).
    split_and!.
    + intros _.
      exists (Row (next_pk (articles d)) (delete "tags" validated_data)).
      split_and!; [done|apply next_pk_fresh|].
      revert Hloop. apply (for_each_attach_keeps (λ d, articles d = _));
        [|done].
      intros td0 d0 res d0' _. apply attach_keeps_articles.
    + intros ->. by destruct Hwhy as [[[=] _]|[[=] _]].
    + intros ->. destruct Hwhy as [[_ Hno]|[[=] _]].
      destruct Hit as [Hit|[-> _]]; [|by apply elem_of_nil in Htd].
      by exists items, td.
Qed.

Lemma attach_keeps_others (k : nat) a td d (res : result ()) d'
  (rel : gset (nat * nat)) :
  pk a = k →
  (∀ p, p.1 ≠ k → p ∈ article_tags d ↔ p ∈ rel) →
  attach a td d = (res, d') →
  ∀ p, p.1 ≠ k → p ∈ article_tags d' ↔ p ∈ rel.
Proof.
  intros Hk Hrel (_ & _ & [->|(r & _ & ->)] & _)%attach_any; [done|].
  intros p Hp. rewrite <- Hrel by done. rewrite elem_of_union, elem_of_singleton.
  split; [|by right]. intros [->|?]; [|done]. simpl in Hp. congruence.
Qed.

(** X9: [update] is not all or nothing either. When it raises
    [TypeError], [FieldError] or [MultipleObjectsReturned], a value other
    than [None] was given under "tags", the instance has been saved with
    the fields set, and no other article gained or lost a tag.
    [TypeError] comes from a value under "tags" that is a scalar other
    than [None] and the empty string, and then the instance has lost all
    its tags and the tag table is as before; [FieldError] from a tag dict
    with a key that is no field of the tag. *)
Theorem update_loses_the_tags_on_error instance validated_data d e d' :
  update instance validated_data d = (Raise e, d') →
  (e = TypeError ∨ e = FieldError ∨ e = MultipleObjectsReturned →
   default (Scalar PyNone) (validated_data !! "tags") ≠ Scalar PyNone
   ∧ stored (Row (pk instance)
               (delete "tags" validated_data ∪ fields instance))
       (articles d) (articles d')
   ∧ (∀ p, p.1 ≠ pk instance → p ∈ article_tags d' ↔ p ∈ article_tags d))
  ∧ (e = TypeError →
     malformed_tags validated_data
     ∧ tags d' = tags d
     ∧ ∀ t, (pk instance, t) ∉ article_tags d')
  ∧ (e = FieldError →
     ∃ items td, tags_given validated_data items ∧ td ∈ items
                 ∧ ¬ accepted Tag (kwargs_of td)).
Proof.
  intros Hrun.
  apply update_run in Hrun as (d1 & Hst & Ht & Hrel & Hrest).
  destruct Hrest as [(_ & [=] & _)|(Hnone & Hrest)]. simpl in Hrest.
  assert (∀ p, p.1 ≠ pk instance →
               p ∈ filter (λ p, p.1 ≠ pk instance) (article_tags d1)
               ↔ p ∈ article_tags d) as Hothers.
  { intros p Hp. rewrite elem_of_filter, Hrel. tauto. }
  destruct Hrest as [(Hmal & [= ->] & ->)|(items & res0 & Hloop & Hres & Hit)].
  - simpl. split_and!; [done| |done]. intros _.
    split_and!; [done|done|].
    intros t [Hne _]%elem_of_filter. done.
  - destruct res0 as [[]|e0]; [done|]. injection Hres as ->.
    pose proof (for_each_attach_Raise _ _ _ _ _ Hloop)
      as (td & Htd & Hwhy).
    split_and!.
    + intros _. split_and!; [done| |].
      * revert Hloop.
        apply (for_each_attach_keeps
                 (λ d0, stored _ (articles d) (articles d0))); [|done].
        intros td0 d0 res d0' _ Hd0 (-> & _)%attach_any. done.
      * revert Hloop.
        apply (for_each_attach_keeps
                 (λ d0, ∀ p, p.1 ≠ pk instance →
                             p ∈ article_tags d0 ↔ p ∈ article_tags d));
          [|done].
        intros td0 d0 res d0' _. by apply attach_keeps_others.
    + intros ->. by destruct Hwhy as [[[=] _]|[[=] _]].
    + intros ->. destruct Hwhy as [[_ Hno]|[[=] _]].
      destruct Hit as [Hit|[-> _]]; [|by apply elem_of_nil in Htd].
      by exists items, td.
Qed.

(** X10: for [update] an empty list of tags and [None] under "tags" are
    not the same: with the empty list the instance loses all its tags,
    with [None] (as with no "tags" key) it keeps them. Both return, store
    the instance with the other fields set, and leave the tag table and
    the tags of other articles as they were. *)
Theorem update_empty_list_is_not_none instance validated_data d :
  let r := Row (pk instance)
               (delete "tags" validated_data ∪ fields instance) in
  (validated_data !! "tags" = Some (PyList []) →
   ∃ d', update instance validated_data d = (Ok r, d')
         ∧ stored r (articles d) (articles d') ∧ tags d' = tags d
         ∧ tags_of d' (pk instance) = ∅
         ∧ ∀ k, k ≠ pk instance → tags_of d' k = tags_of d k)
  ∧ (validated_data !! "tags" = Some (Scalar PyNone) →
     ∃ d', update instance validated_data d = (Ok r, d')
           ∧ stored r (articles d) (articles d') ∧ tags d' = tags d
           ∧ ∀ k, tags_of d' k = tags_of d k).
Proof.
  intros r.
  destruct (update_statement instance validated_data d)
    as (d1 & Hst & Ht & Hrel & Heq).
  fold r in Hst, Heq. split; intros Htags; rewrite Heq, Htags; simpl.
  - eexists. unfold mbind, M_bind, tags_clear, write, mret, M_ret. simpl.
    split; [reflexivity|]. simpl. split_and!; [done..| |].
    + unfold tags_of. simpl. apply set_eq. intros t.
      rewrite elem_of_map. split; [|by intros ?%not_elem_of_empty].
      intros (p & _ & [? [? _]%elem_of_filter]%elem_of_filter). done.
    + intros k Hk. unfold tags_of. simpl. rewrite Hrel. apply set_eq.
      intros t. rewrite !elem_of_map. split.
      * intros (p & -> & [? [_ ?]%elem_of_filter]%elem_of_filter).
        exists p. split; [done|]. by apply elem_of_filter.
      * intros (p & -> & [Hp ?]%elem_of_filter).
        exists p. split; [done|]. apply elem_of_filter. split; [done|].
        apply elem_of_filter. split; [congruence|done].
  - exists d1. unfold mbind, M_bind, mret, M_ret. simpl.
    split_and!; [done..|]. intros k. unfold tags_of. by rewrite Hrel.
Qed.

(** *** Updating twice *)

Lemma stored_again r before mid after :
  stored r before mid → stored r mid after → after = mid.
Proof.
  intros Hfirst Hsecond.
  pose proof (stored_keys _ _ _ Hfirst) as [Hin _].
  destruct Hsecond as [[_ ->]|[Hout _]]; [|done].
  destruct Hfirst as [[_ ->]|[Hnew ->]].
  - rewrite <- list_fmap_compose. apply list_fmap_ext. intros _ x _. simpl.
    destruct (decide (pk x = pk r)) as [Hx|Hx].
    + rewrite (bool_decide_eq_true_2 (pk x = pk r)) by done.
      by rewrite bool_decide_eq_true_2.
    + rewrite (bool_decide_eq_false_2 (pk x = pk r)) by done.
      by rewrite bool_decide_eq_false_2.
  - rewrite fmap_app. simpl. rewrite bool_decide_eq_true_2 by done.
    f_equal. rewrite <- (list_fmap_id before) at 2.
    apply list_fmap_ext. intros _ x Hx%list_elem_of_lookup_2. simpl.
    rewrite bool_decide_eq_false_2; [done|].
    intros Heq. apply Hnew. rewrite <- Heq. apply list_elem_of_fmap. eauto.
Qed.

Lemma attach_found a td (arts tgs : list row) (rel : gset (nat * nat)) t :
  accepted Tag (kwargs_of td) →
  filter (matches (kwargs_of td)) tgs = [t] →
  attach a td (Db arts tgs rel)
  = (Ok (), Db arts tgs ({[ (pk a, pk t) ]} ∪ rel)).
Proof.
  intros Hacc Ht. unfold attach, mbind, M_bind, get_or_create, qs_get. simpl.
  rewrite bool_decide_eq_true_2 by done. by rewrite Ht.
Qed.

(** A loop over dicts that each match exactly one tag creates no tag: it
    attaches the tag each dict matches and does nothing else. *)
Lemma for_each_attach_found a (items : list (gmap string scalar))
  (arts tgs : list row) (rel : gset (nat * nat)) :
  tag_fields_known items →
  (∀ td, td ∈ items → ∃ t, filter (matches (kwargs_of td)) tgs = [t]) →
  ∃ rel' : gset (nat * nat),
    for_each items (attach a) (Db arts tgs rel) = (Ok (), Db arts tgs rel')
    ∧ ∀ p, p ∈ rel' ↔
           p ∈ rel
           ∨ ∃ td t, td ∈ items
                     ∧ filter (matches (kwargs_of td)) tgs = [t]
                     ∧ p = (pk a, pk t).
Proof.
  revert rel. induction items as [|td items IH]; intros rel Hknown Hone; simpl.
  { exists rel. split; [done|]. intros p. split; [by left|].
    intros [?|(td & t & ?%elem_of_nil & _)]; done. }
  destruct (Hone td) as [t Ht]; [by left|].
  destruct (IH ({[ (pk a, pk t) ]} ∪ rel)) as (rel' & Hloop & Hrel').
  { intros td' ?. apply Hknown. by right. }
  { intros td' ?. apply Hone. by right. }
  exists rel'. split.
  - unfold mbind, M_bind. rewrite (attach_found _ _ _ _ _ t); [done| |done].
    apply Hknown. by left.
  - intros p. rewrite Hrel', elem_of_union, elem_of_singleton. split.
    + intros [[->|?]|(td' & t' & ? & ? & ->)]; [|by left|].
      * right. exists td, t. split_and!; [by left|done..].
      * right. exists td', t'. split_and!; [by right|done..].
    + intros [?|(td' & t' & [->|?]%elem_of_cons & Ht' & ->)].
      * left. by right.
      * left. left. congruence.
      * right. exists td', t'. done.
Qed.

(** X11: updating twice is updating once. When the tag dicts given (if
    any) have the same keys and none matches two tags, an [update] that
    returned can be run again on what it returned, with the same data: it
    returns the same instance and leaves the database as it is. *)
Theorem update_twice_is_update_once instance validated_data d r d1 :
  (∀ items, tags_given validated_data items → unambiguous items (tags d)) →
  update instance validated_data d = (Ok r, d1) →
  update r validated_data d1 = (Ok r, d1).
Proof.
  intros Hun Hfirst.
  apply update_run in Hfirst as (d0 & Hst & Ht & Hrel & Hrest).
  set (k := pk instance) in *.
  set (m := delete "tags" validated_data) in *.
  assert (Row (pk (Row k (m ∪ fields instance)))
              (m ∪ fields (Row k (m ∪ fields instance)))
          = Row k (m ∪ fields instance)) as Hsame.
  { simpl. by rewrite (assoc_L (∪)), (idemp_L (∪)). }
  destruct Hrest as [(Hnone & [= ->] & ->)|(Hsome & Hrest)].
  - destruct (update_statement (Row k (m ∪ fields instance))
                validated_data d0) as (d0' & Hst' & Ht' & Hrel' & ->).
    fold m in Hst' |- *. rewrite Hsame in *. rewrite Hnone.
    rewrite bool_decide_eq_false_2 by (by intros []).
    unfold mbind, M_bind, mret, M_ret. do 2 f_equal.
    apply (stored_again _ _ _ _ Hst) in Hst'.
    destruct d0, d0'; simpl in *; congruence.
  - simpl in Hrest.
    destruct Hrest as [(_ & [=] & _)|(items & res0 & Hloop & Hres & Hit)].
    destruct res0 as [[]|e]; [|done]. injection Hres as ->.
    assert (unambiguous items (tags d0)) as Hun0.
    { rewrite Ht. destruct Hit as [Hit|[-> _]]; [by apply Hun|].
      split; [by intros ? ?%elem_of_nil|by intros ?? ?%elem_of_nil]. }
    pose proof (for_each_attach_known _ _ _ _ Hloop) as Hknown.
    pose proof Hloop as Hone.
    apply for_each_attach_one in Hone as [_ Hone]; [|done].
    pose proof (for_each_attach_Ok _ _ _ _ Hloop)
      as (Harts & _ & Hkeep & Hgain & _). simpl in Harts, Hkeep, Hgain.
    destruct (update_statement (Row k (m ∪ fields instance))
                validated_data d1) as (d1' & Hst' & Ht' & Hrel' & ->).
    fold m in Hst' |- *. rewrite Hsame in *.
    rewrite <- Harts in Hst. apply (stored_again _ _ _ _ Hst) in Hst'.
    rewrite bool_decide_eq_true_2 by done.
    assert (iter (default (Scalar PyNone) (validated_data !! "tags"))
            = mret items) as ->.
    { destruct Hit as [->|[-> ->]]; done. }
    unfold mbind at 1 2 3, M_bind at 1 2 3, tags_clear, write. simpl.
    unfold mret at 1, M_ret at 1.
    destruct (for_each_attach_found (Row k (m ∪ fields instance)) items
                (articles d1') (tags d1')
                (filter (λ p, p.1 ≠ k) (article_tags d1')))
      as (rel' & -> & Hrel''); [done| |].
    { intros td Htd. destruct (Hone td Htd) as (t & ? & _).
      exists t. by rewrite Ht'. }
    unfold mret, M_ret. do 2 f_equal.
    assert (rel' = article_tags d1) as ->; [|destruct d1, d1'; simpl in *;
                                              congruence].
    apply set_eq. intros p. rewrite Hrel'', elem_of_filter, Hrel', Ht'.
    split.
    + intros [[_ ?]|(td & t & Htd & Hf & ->)]; [done|].
      destruct (Hone td Htd) as (t' & Hf' & Hatt). simpl.
      rewrite Hf in Hf'. by injection Hf' as ->.
    + intros Hp. destruct (decide (p.1 = k)) as [Hk|Hk]; [|by left].
      right. destruct (Hgain p Hp) as [[? _]%elem_of_filter|[_ Hgot]]; [done|].
      destruct Hgot as (td & row & Htd & Hrow & Hpk & Hm).
      destruct (Hone td Htd) as (t & Hf & _).
      exists td, t. split_and!; [done..|].
      assert (row ∈ filter (matches (kwargs_of td)) (tags d1)) as Hin
        by by apply list_elem_of_filter.
      rewrite Hf in Hin. apply list_elem_of_singleton in Hin as ->.
      destruct p; simpl in *; congruence.
Qed.

End Runs.

(** *** Create and update on the sample data *)

Section RunsSample.

Import ArticleCreateSerializer Sample.

Lemma store_keys_unique : keys_unique store.
Proof. split; apply (bool_decide_eq_true_1 _); vm_compute; reflexivity. Qed.

Lemma store_integrity : integrity store.
Proof.
  intros p Hp. unfold store in Hp. simpl in Hp.
  apply elem_of_singleton in Hp as ->. simpl.
  split; apply (bool_decide_eq_true_1 _); vm_compute; reflexivity.
Qed.

Lemma create_and_update_keep_keys_unique_witness :
  (∀ validated_data res d',
     create validated_data store = (res, d') → keys_unique d')
  ∧ (∀ instance validated_data res d',
       update instance validated_data store = (res, d') → keys_unique d').
Proof.
  apply (create_and_update_keep_keys_unique store). exact store_keys_unique.
Defined.

Lemma create_and_update_keep_integrity_witness :
  (∀ validated_data res d',
     create validated_data store = (res, d') → integrity d')
  ∧ (∀ instance validated_data res d',
       update instance validated_data store = (res, d') → integrity d').
Proof.
  apply (create_and_update_keep_integrity store). exact store_integrity.
Defined.

Lemma each_tag_dict_names_one_tag_witness :
  (∀ a d',
     create tagged store = (Ok a, d') →
     unambiguous tag_dicts (tags d')
     ∧ ∀ td, td ∈ tag_dicts →
         ∃ r, filter (matches (kwargs_of td)) (tags d') = [r]
              ∧ (pk a, pk r) ∈ article_tags d')
  ∧ (∀ instance r d',
       update instance tagged store = (Ok r, d') →
       unambiguous tag_dicts (tags d')
       ∧ ∀ td, td ∈ tag_dicts →
           ∃ t, filter (matches (kwargs_of td)) (tags d') = [t]
                ∧ (pk instance, pk t) ∈ article_tags d').
Proof.
  apply (each_tag_dict_names_one_tag tagged tag_dicts store).
  - reflexivity.
  - exact tag_dicts_unambiguous.
Defined.

(** [create] with a number under "tags": the article is there, the
    exception too. *)
Lemma create_leaves_the_article_on_error_witness :
  let d' := Db [notes; guide; news; Row 4 {[ "title" := text "Notes" ]}]
               [python; django] {[ (2, 1) ]} in
  (unknown_keyword Article (delete "tags" broken) →
   TypeError = TypeError ∧ d' = store)
  ∧ (accepted Article (delete "tags" broken) →
     (TypeError = TypeError ∨ TypeError = FieldError
      ∨ TypeError = MultipleObjectsReturned →
      ∃ a, fields a = delete "tags" broken
           ∧ (pk a ∉ pk <$> articles store)
           ∧ articles d' = articles store ++ [a])
     ∧ (TypeError = TypeError →
        malformed_tags broken
        ∧ tags d' = tags store ∧ article_tags d' = article_tags store)
     ∧ (TypeError = FieldError →
        ∃ items td, tags_given broken items ∧ td ∈ items
                    ∧ ¬ accepted Tag (kwargs_of td))).
Proof.
  apply (create_leaves_the_article_on_error broken store).
  vm_compute. reflexivity.
Defined.

(** A key that is no field of the article: nothing is written. A key
    that is no field of the tag: the article is there already. *)
Example create_with_unknown_keys :
  let colour : gmap string scalar := {[ "colour" := PyStr (lit "red") ]} in
  create {[ "headline" := text "Notes" ]} store = (Raise TypeError, store)
  ∧ create {[ "title" := text "Notes"; "tags" := PyList [colour] ]} store
    = (Raise FieldError,
       Db [notes; guide; news; Row 4 {[ "title" := text "Notes" ]}]
          [python; django] {[ (2, 1) ]}).
Proof. split; vm_compute; reflexivity. Qed.

(** [update] of the guide with a number under "tags": the title is saved,
    the tag of the guide is gone. *)
Lemma update_loses_the_tags_on_error_witness :
  let d' := Db [notes; Row 2 {[ "title" := text "Notes";
                                "status" := text "published";
                                "author" := user_ref alice ]}; news]
               [python; django] ∅ in
  (TypeError = TypeError ∨ TypeError = FieldError
   ∨ TypeError = MultipleObjectsReturned →
   default (Scalar PyNone) (broken !! "tags") ≠ Scalar PyNone
   ∧ stored (Row (pk guide) (delete "tags" broken ∪ fields guide))
       (articles store) (articles d')
   ∧ (∀ p, p.1 ≠ pk guide → p ∈ article_tags d' ↔ p ∈ article_tags store))
  ∧ (TypeError = TypeError →
     malformed_tags broken
     ∧ tags d' = tags store
     ∧ ∀ t, (pk guide, t) ∉ article_tags d')
  ∧ (TypeError = FieldError →
     ∃ items td, tags_given broken items ∧ td ∈ items
                 ∧ ¬ accepted Tag (kwargs_of td)).
Proof.
  apply (update_loses_the_tags_on_error guide broken store).
  vm_compute. reflexivity.
Defined.

(** [update] with a tag dict whose key is no field of the tag: the guide
    is saved and has lost its tag. *)
Example update_with_unknown_tag_key :
  let colour : gmap string scalar := {[ "colour" := PyStr (lit "red") ]} in
  update guide {[ "tags" := PyList [colour] ]} store
  = (Raise FieldError, Db [notes; guide; news] [python; django] ∅).
Proof. vm_compute. reflexivity. Qed.

Example update_empty_list_and_none_on_store :
  (update guide {[ "tags" := PyList [] ]} store).2
  = Db [notes; guide; news] [python; django] ∅
  ∧ (update guide {[ "tags" := Scalar PyNone ]} store).2 = store
  ∧ (create {[ "tags" := Scalar PyNone ]} store).1 = Raise TypeError.
Proof. split_and!; vm_compute; reflexivity. Qed.

Lemma update_twice_is_update_once_witness :
  update retitled tagged retagged = (Ok retitled, retagged).
Proof.
  apply (update_twice_is_update_once guide tagged store).
  - intros items Hgiven. vm_compute in Hgiven. injection Hgiven as <-.
    exact tag_dicts_unambiguous.
  - vm_compute. reflexivity.
Defined.

End RunsSample.

(** ** The filter methods (filters-example.py) *)

Section FilterMethods.

Implicit Types (queryset : list row) (t : row) (needle s : str).

Lemma elem_of_with_participants participants queryset t :
  t ∈ with_participants participants queryset
  ↔ t ∈ queryset ∧ participants (pk t) ≠ [].
Proof.
  unfold with_participants. rewrite list_elem_of_bind. split.
  - intros (t' & (z & -> & Hz)%list_elem_of_fmap & Ht'). split; [done|].
    intros Hnone. rewrite Hnone in Hz. by apply elem_of_nil in Hz.
  - intros [Ht Hsome]. exists t. split; [|done].
    destruct (participants (pk t)) as [|z zs]; [done|].
    apply list_elem_of_fmap. exists z. split; [done|by left].
Qed.

(** X12: [has_participants=true] and [has_participants=false] split a
    queryset: a trial is in the first answer exactly when it has a
    participant and in the second exactly when it has none, so every trial
    of the queryset is in one of them and none in both; and the first
    answer names no trial twice, although the join gives a trial once for
    each participant. *)
Theorem has_participants_splits participants queryset name :
  let yes := filter_has_participants participants queryset name true in
  let no := filter_has_participants participants queryset name false in
  (∀ t, t ∈ yes ↔ t ∈ queryset ∧ participants (pk t) ≠ [])
  ∧ (∀ t, t ∈ no ↔ t ∈ queryset ∧ participants (pk t) = [])
  ∧ (∀ t, t ∈ queryset ↔ t ∈ yes ∨ t ∈ no)
  ∧ (∀ t, t ∈ yes → t ∉ no)
  ∧ NoDup yes
  ∧ no `sublist_of` queryset.
Proof.
  intros yes no.
  assert (∀ t, t ∈ yes ↔ t ∈ queryset ∧ participants (pk t) ≠ []) as Hyes.
  { intros t. unfold yes, filter_has_participants, distinct.
    by rewrite elem_of_remove_dups, elem_of_with_participants. }
  assert (∀ t, t ∈ no ↔ t ∈ queryset ∧ participants (pk t) = []) as Hno.
  { intros t. unfold no, filter_has_participants, without_participants.
    rewrite list_elem_of_filter. tauto. }
  split_and!; [done|done| | | |].
  - intros t. rewrite Hyes, Hno.
    destruct (decide (participants (pk t) = [])); tauto.
  - intros t [_ ?]%Hyes [_ ?]%Hno. done.
  - apply NoDup_remove_dups.
  - apply sublist_filter.
Qed.

Lemma occurs_in_spec needle s :
  occurs_in needle s = true ↔ ∃ pre post, s = pre ++ needle ++ post.
Proof.
  induction s as [|c s IH]; simpl.
  - rewrite orb_false_r, bool_decide_eq_true. split.
    + intros ->%prefix_nil_inv. by exists [], [].
    + intros (pre & post & Heq). symmetry in Heq.
      apply app_eq_nil in Heq as [_ [-> _]%app_eq_nil]. done.
  - rewrite orb_true_iff, bool_decide_eq_true, IH. split.
    + intros [[post ->]|(pre & post & ->)]; [by exists [], post|].
      by exists (c :: pre), post.
    + intros ([|c' pre] & post & Heq); simpl in Heq.
      * left. by exists post.
      * right. injection Heq as _ ->. by exists pre, post.
Qed.

Lemma occurs_in_trans needle needle' s :
  occurs_in needle needle' = true → occurs_in needle' s = true →
  occurs_in needle s = true.
Proof.
  rewrite !occurs_in_spec. intros (p1 & q1 & ->) (p2 & q2 & ->).
  exists (p2 ++ p1), (q1 ++ q2). by rewrite <- !app_assoc.
Qed.

Lemma icontains_narrows fold needle needle' column :
  occurs_in (fold <$> needle) (fold <$> needle') = true →
  icontains fold needle' column = true → icontains fold needle column = true.
Proof.
  intros Hocc. destruct column as [[| | |s]|]; simpl; try done.
  by apply occurs_in_trans.
Qed.

(** X13: a search term that contains another one, case aside, finds
    nothing the other does not find: searching it in the whole queryset
    is searching it among the trials found for the shorter term. In
    particular two terms that differ only in case find the same
    trials. *)
Theorem search_for_more_finds_less fold pi_name queryset name needle needle' :
  occurs_in (fold <$> needle) (fold <$> needle') = true →
  filter_search fold pi_name
    (filter_search fold pi_name queryset name needle) name needle'
  = filter_search fold pi_name queryset name needle'
  ∧ filter_search fold pi_name queryset name needle'
    `sublist_of` filter_search fold pi_name queryset name needle
  ∧ (fold <$> needle = fold <$> needle' →
     filter_search fold pi_name queryset name needle
     = filter_search fold pi_name queryset name needle').
Proof.
  intros Hocc.
  assert (filter_search fold pi_name
            (filter_search fold pi_name queryset name needle) name needle'
          = filter_search fold pi_name queryset name needle') as Hwithin.
  { unfold filter_search. rewrite list_filter_filter.
    apply list_filter_iff. intros t. split; [by intros [? _]|].
    intros Hfound. split; [done|].
    apply Is_true_true in Hfound. apply Is_true_true.
    rewrite !orb_true_iff in Hfound |- *.
    destruct Hfound as [[?|?]|?]; eauto using icontains_narrows. }
  split_and!; [done| |].
  - rewrite <- Hwithin. apply sublist_filter.
  - intros Hsame. unfold filter_search, icontains. by rewrite Hsame.
Qed.

End FilterMethods.

Section FilterMethodsSample.

Import Sample.

(** "sleep" is found in a title and, in capitals, in a description;
    "caffeine on sleep" only in one of the two. *)
Lemma search_for_more_finds_less_witness :
  filter_search lower no_investigator
    (filter_search lower no_investigator trials "search" (lit "Sleep"))
    "search" (lit "caffeine on sleep")
  = filter_search lower no_investigator trials "search"
      (lit "caffeine on sleep")
  ∧ filter_search lower no_investigator trials "search"
      (lit "caffeine on sleep")
    `sublist_of` filter_search lower no_investigator trials "search"
                   (lit "Sleep")
  ∧ (lower <$> lit "Sleep" = lower <$> lit "caffeine on sleep" →
     filter_search lower no_investigator trials "search" (lit "Sleep")
     = filter_search lower no_investigator trials "search"
         (lit "caffeine on sleep")).
Proof.
  apply (search_for_more_finds_less lower no_investigator trials "search"
           (lit "Sleep") (lit "caffeine on sleep")).
  vm_compute. reflexivity.
Defined.

(** The first trial has two participants, the second none. *)
Example has_participants_on_trials :
  pk <$> trials = [1; 2; 3]
  ∧ pk <$> with_participants enrolled trials = [1; 1; 3]
  ∧ pk <$> filter_has_participants enrolled trials "has_participants" true
    = [1; 3]
  ∧ pk <$> filter_has_participants enrolled trials "has_participants" false
    = [2].
Proof. split_and!; vm_compute; reflexivity. Qed.

Example search_on_trials :
  pk <$> filter_search lower no_investigator trials "search" (lit "Sleep")
  = [2; 3]
  ∧ pk <$> filter_search lower no_investigator trials "search"
             (lit "caffeine on sleep") = [2]
  ∧ pk <$> filter_search lower no_investigator trials "search" (lit "STUDY")
    = [1].
Proof. split_and!; vm_compute; reflexivity. Qed.

End FilterMethodsSample.

(** ** The view and the serializer together *)

Section Together.

Import ArticleViewSet.

Context {R : Type} (self : generic R).

(** X14: an article created through [perform_create] with the nested
    serializer has the requester as its author, whatever author the
    validated data named; its other columns are the validated fields
    other than "tags"; and it is a new row of the article table. *)
Theorem perform_create_assigns_the_requester request validated_data d a d' :
  perform_create request
    {| validated_data := validated_data;
       serializer_create := ArticleCreateSerializer.create |} d
  = (Ok a, d') →
  getattr a "author" = user_ref (user request)
  ∧ (∀ k, k ≠ "author" → k ≠ "tags" → fields a !! k = validated_data !! k)
  ∧ fields a !! "tags" = None
  ∧ (pk a ∉ pk <$> articles d)
  ∧ articles d' = articles d ++ [a].
Proof.
  unfold perform_create, ModelViewSet.save. simpl.
  intros Hrun%create_run. simpl in Hrun.
  destruct Hrun as [(_ & [=] & _)|[(_ & _ & [=] & _)
                    |(_ & _ & items & res0 & Hloop & Hres & _)]].
  destruct res0 as [[]|e]; [|done]. injection Hres as ->.
  split_and!.
  - unfold getattr, get. simpl.
    rewrite lookup_delete_ne by done.
    by rewrite (lookup_union_Some_l _ _ _ _ (lookup_singleton_eq _ _)).
  - intros k Hauthor Htags. simpl. rewrite lookup_delete_ne by done.
    rewrite lookup_union_r; [done|]. by apply lookup_singleton_ne.
  - simpl. apply lookup_delete_eq.
  - apply next_pk_fresh.
  - revert Hloop. apply (for_each_attach_keeps (λ d, articles d = _));
      [|done].
    intros td d0 res d0' _. apply attach_keeps_articles.
Qed.

Lemma publish_200 request k d resp d1 :
  backends_select self →
  publish self request k d = (Ok resp, d1) → status_code resp = 200 →
  articles d1
  = (λ r, if bool_decide (pk r = k)
          then Row (pk r) (<[ "status" := published ]> (fields r))
          else r) <$> articles d.
Proof.
  intros Hsel Hrun H200. revert Hrun. unfold publish, mbind, M_bind.
  destruct (ModelViewSet.get_object _ _ _ _ _) as [[article|e] d0] eqn:Hget;
    [|done].
  apply get_object_Ok in Hget as (-> & Hk & Hin).
  destruct (eq_str _ _).
  { intros [= <- <-]. simpl in H200. unfold HTTP_400_BAD_REQUEST in H200. lia. }
  unfold ORM.save. simpl. rewrite bool_decide_eq_true_2.
  - intros [= <- <-]. simpl. rewrite Hk.
    unfold getattr, get, setattr. simpl. by rewrite lookup_insert_eq.
  - apply list_elem_of_fmap. exists article. split; [done|].
    by apply get_queryset_subset with request, Hsel with request.
Qed.

(** X15: publishing makes an article visible. After [publish] answered
    200 for a key, every article under that key is, with status
    "published" and nothing else changed, in the queryset of every user,
    staff or not; and [my_articles] without paginator shows it to its
    author. *)
Theorem published_article_is_visible request k d resp d1 a request' :
  backends_select self →
  publish self request k d = (Ok resp, d1) → status_code resp = 200 →
  a ∈ articles d → pk a = k →
  setattr a "status" published ∈ get_queryset request' d1
  ∧ (getattr a "author" = user_ref (user request') →
     paginate_queryset self request'
       (qs_filter "author" (user_ref (user request'))
          (get_queryset request' d1)) = None →
     ∃ shown,
       my_articles self request' d1
       = (Ok {| data := Items (to_representation self ArticleSerializer
                                 <$> shown);
                status_code := 200 |}, d1)
       ∧ setattr a "status" published ∈ shown).
Proof.
  intros Hsel Hrun H200 Ha Hk.
  pose proof (publish_200 _ _ _ _ _ Hsel Hrun H200) as Harts.
  assert (setattr a "status" published ∈ get_queryset request' d1) as Hin.
  { assert (setattr a "status" published ∈ articles d1) as Hin1.
    { rewrite Harts. apply list_elem_of_fmap. exists a. split; [|done].
      by rewrite bool_decide_eq_true_2. }
    unfold get_queryset, ModelViewSet.get_queryset, qs_filter. simpl.
    destruct (is_staff _); simpl; [done|].
    apply list_elem_of_filter. split; [|done]. simpl.
    apply lookup_insert_eq. }
  split; [done|]. intros Hauthor Hpage.
  eexists. unfold my_articles, mbind, M_bind, read. rewrite Hpage.
  split; [reflexivity|].
  apply list_elem_of_filter. split; [|done]. simpl.
  rewrite lookup_insert_ne by done.
  revert Hauthor. unfold getattr, get, user_ref.
  destruct (fields a !! "author"); simpl; congruence.
Qed.

End Together.

Section TogetherSample.

Import ArticleViewSet Sample.

(** Alice creates an article and names the editor as its author. *)
Lemma perform_create_assigns_the_requester_witness :
  let sent : gmap string value :=
    <[ "author" := user_ref editor ]> tagged in
  let a := Row 4 {[ "title" := text "Ownership";
                    "author" := user_ref alice ]} in
  let d' := Db [notes; guide; news; a]
               [python; django; Row 3 {[ "name" := text "rust" ]}]
               {[ (2, 1); (4, 1); (4, 3) ]} in
  getattr a "author" = user_ref (user by_alice)
  ∧ (∀ k, k ≠ "author" → k ≠ "tags" → fields a !! k = sent !! k)
  ∧ fields a !! "tags" = None
  ∧ (pk a ∉ pk <$> articles store)
  ∧ articles d' = articles store ++ [a].
Proof.
  apply (perform_create_assigns_the_requester by_alice
           (<[ "author" := user_ref editor ]> tagged) store).
  vm_compute. reflexivity.
Defined.

(** The editor publishes the draft of Alice; Alice then sees it. *)
Lemma published_article_is_visible_witness :
  setattr notes "status" published ∈ get_queryset by_alice released
  ∧ (getattr notes "author" = user_ref (user by_alice) →
     paginate_queryset plain by_alice
       (qs_filter "author" (user_ref (user by_alice))
          (get_queryset by_alice released)) = None →
     ∃ shown,
       my_articles plain by_alice released
       = (Ok {| data := Items (to_representation plain ArticleSerializer
                                 <$> shown);
                status_code := 200 |}, released)
       ∧ setattr notes "status" published ∈ shown).
Proof.
  apply (published_article_is_visible plain by_editor 1 store
           {| data := Item (article 1 "Field notes" "published" alice);
              status_code := 200 |} released notes by_alice).
  - exact plain_backends_select.
  - vm_compute. reflexivity.
  - reflexivity.
  - unfold store. simpl. by left.
  - reflexivity.
Defined.

Example my_articles_before_and_after :
  (my_articles plain by_alice store).1
  = Ok {| data := Items [guide]; status_code := 200 |}
  ∧ (my_articles plain by_alice released).1
    = Ok {| data := Items [article 1 "Field notes" "published" alice; guide];
            status_code := 200 |}.
Proof. split; vm_compute; reflexivity. Qed.

End TogetherSample.
